(** * osf.io: transactional email dispatch, contributor integrity, preprint summary

    A shallow embedding of [framework/email/tasks.py] together with the
    model-layer rules exercised by [osf_tests]. Python functions that talk to
    the outside world (the logger, sentry, an SMTP server, the SendGrid
    client) are embedded in a small state-and-exception monad whose state is
    the chronological log of the effects performed so far. *)

From Stdlib Require Import ZArith NArith List String Ascii Bool Lia.
From Stdlib.Strings Require Import Byte.
From stdpp Require Import base option list gmap strings.

Local Open Scope string_scope.
Local Open Scope list_scope.

(** ** Python values used by the email module *)

Module Py.

(** Python's truth-value protocol ([__bool__] / [__len__]). *)
Class Truthy (A : Type) := truthy : A -> bool.

#[export] Instance truthy_bool : Truthy bool := fun b => b.

#[export] Instance truthy_str : Truthy string :=
  fun s => match s with EmptyString => false | String _ _ => true end.

#[export] Instance truthy_list {A} : Truthy (list A) :=
  fun l => match l with [] => false | _ :: _ => true end.

(** [None] is falsy; any other value follows its own type. *)
#[export] Instance truthy_option {A} `{Truthy A} : Truthy (option A) :=
  fun o => match o with None => false | Some a => truthy a end.

(** [a or b] *)
Definition or_ {A} `{Truthy A} (a b : A) : A := if truthy a then a else b.

(** [x is None] *)
Definition is_None {A} (o : option A) : bool :=
  match o with None => true | Some _ => false end.

(** The values the functions of [tasks.py] return: [None], [True], [False]. *)
Inductive value := VNone | VBool (b : bool).

#[export] Instance truthy_value : Truthy value :=
  fun v => match v with VNone => false | VBool b => b end.

(** Exceptions that can cross the functions of this file. [TypeError] is
    raised by Python's own operators and by [base64.b64encode];
    [LibraryError] stands for whatever [smtplib] or the SendGrid client
    raise. *)
Inductive exn := TypeError | LibraryError (detail : string).

Inductive outcome (A : Type) := Returned (a : A) | Raised (e : exn).
Arguments Returned {A} a.
Arguments Raised {A} e.

(** An [attachment_content] argument, as annotated on [send_email]:
    [str | bytes | BytesIO]. *)
Inductive content :=
| CStr (s : string)
| CBytes (b : list byte)
| CBytesIO (b : list byte).

(** A [BytesIO] object defines neither [__bool__] nor [__len__]: it is
    always truthy. *)
#[export] Instance truthy_content : Truthy content :=
  fun c => match c with
           | CStr s => truthy s
           | CBytes b => truthy b
           | CBytesIO _ => true
           end.

(** A [cc_addr] / [bcc_addr] argument: one address as a [str], or a list. *)
Inductive addrs := AddrStr (s : string) | AddrList (l : list string).

#[export] Instance truthy_addrs : Truthy addrs :=
  fun a => match a with AddrStr s => truthy s | AddrList l => truthy l end.

End Py.
Import Py.

(** ** [base64.b64encode] *)

Module Base64.

Definition alphabet : list ascii :=
  list_ascii_of_string
    "ABCDEFGHIJKLMNOPQRSTUVWXYZabcdefghijklmnopqrstuvwxyz0123456789+/".

(** The character of a 6-bit group. *)
Definition sextet (n : N) : ascii :=
  nth (N.to_nat (N.land n 63)) alphabet "A"%char.

Definition pad : ascii := "="%char.

(** Three input bytes make one 24-bit group, written as four characters;
    a trailing group of one or two bytes is zero-filled and padded. *)
Fixpoint encode (bs : list byte) : string :=
  match bs with
  | [] => ""
  | [a] =>
      let g := N.shiftl (Byte.to_N a) 16 in
      String (sextet (N.shiftr g 18))
        (String (sextet (N.shiftr g 12)) (String pad (String pad "")))
  | [a; b] =>
      let g := N.lor (N.shiftl (Byte.to_N a) 16) (N.shiftl (Byte.to_N b) 8) in
      String (sextet (N.shiftr g 18))
        (String (sextet (N.shiftr g 12))
           (String (sextet (N.shiftr g 6)) (String pad "")))
  | a :: b :: c :: rest =>
      let g := N.lor (N.lor (N.shiftl (Byte.to_N a) 16)
                            (N.shiftl (Byte.to_N b) 8)) (Byte.to_N c) in
      String (sextet (N.shiftr g 18))
        (String (sextet (N.shiftr g 12))
           (String (sextet (N.shiftr g 6))
              (String (sextet g) (encode rest))))
  end.

(** [b64encode(x).decode()]: only bytes-like objects are accepted; a [str]
    or a [BytesIO] raises [TypeError]. *)
Definition b64encode (x : content) : outcome string :=
  match x with
  | CBytes b => Returned (encode b)
  | CStr _ | CBytesIO _ => Raised TypeError
  end.

(** [_content_to_bytes]: the helper of [tasks.py] that turns every
    accepted [attachment_content] into [bytes]. Its last branch
    ([str(x).encode()]) is for objects outside the annotated union. *)
Definition _content_to_bytes (attachment_content : content) : list byte :=
  match attachment_content with
  | CBytes b => b
  | CBytesIO b => b
  | CStr s => list_byte_of_string s
  end.

End Base64.

(** ** [framework/email/tasks.py] *)

Module Email.

(** The names of [website.settings] read by [tasks.py]. *)
Record Settings := {
  USE_EMAIL : bool;
  SENDGRID_API_KEY : option string;
  SENDGRID_WHITELIST_MODE : bool;
  SENDGRID_EMAIL_WHITELIST : list string;
  MAIL_SERVER : string;
  MAIL_USERNAME : option string;
  MAIL_PASSWORD : option string;
}.

(** [email.mime.text.MIMEText]: the body with its subtype and charset, and
    the headers assigned through [msg[name] = value], in order. *)
Record MIMEText := {
  mime_payload : string;
  mime_subtype : string;
  mime_charset : string;
  mime_headers : list (string * string);
}.

Definition MIMEText_new (text subtype charset : string) : MIMEText :=
  {| mime_payload := text; mime_subtype := subtype;
     mime_charset := charset; mime_headers := [] |}.

(** [msg[name] = value] appends a header. *)
Definition set_header (msg : MIMEText) (name value : string) : MIMEText :=
  {| mime_payload := mime_payload msg; mime_subtype := mime_subtype msg;
     mime_charset := mime_charset msg;
     mime_headers := mime_headers msg ++ [(name, value)] |}.

(** [msg[name]]: the first header of that name. *)
Definition get_header (msg : MIMEText) (name : string) : option string :=
  snd <$> List.find (fun h => String.eqb (fst h) name) (mime_headers msg).

(** [sendgrid.helpers.mail]: the objects [_send_with_sendgrid] builds. *)
Record Personalization := {
  tos : list string;
  ccs : list string;
  bccs : list string;
}.

Definition Personalization_new : Personalization :=
  {| tos := []; ccs := []; bccs := [] |}.
Definition add_to (p : Personalization) (a : string) : Personalization :=
  {| tos := tos p ++ [a]; ccs := ccs p; bccs := bccs p |}.
Definition add_cc (p : Personalization) (a : string) : Personalization :=
  {| tos := tos p; ccs := ccs p ++ [a]; bccs := bccs p |}.
Definition add_bcc (p : Personalization) (a : string) : Personalization :=
  {| tos := tos p; ccs := ccs p; bccs := bccs p ++ [a] |}.

Record Attachment := {
  file_content : string;
  file_name : string;
  disposition : string;
}.

(** [mail_categories] keeps the argument of each [add_category] call. *)
Record Mail := {
  from_email : string;
  html_content : string;
  mail_subject : string;
  mail_reply_to : option string;
  personalizations : list Personalization;
  mail_categories : list (list string);
  attachments : list Attachment;
}.

Definition Mail_new (from_email html_content subject : string) : Mail :=
  {| from_email := from_email; html_content := html_content;
     mail_subject := subject; mail_reply_to := None;
     personalizations := []; mail_categories := []; attachments := [] |}.

Definition set_reply_to (m : Mail) (r : string) : Mail :=
  {| from_email := from_email m; html_content := html_content m;
     mail_subject := mail_subject m; mail_reply_to := Some r;
     personalizations := personalizations m;
     mail_categories := mail_categories m; attachments := attachments m |}.

Definition add_personalization (m : Mail) (p : Personalization) : Mail :=
  {| from_email := from_email m; html_content := html_content m;
     mail_subject := mail_subject m; mail_reply_to := mail_reply_to m;
     personalizations := personalizations m ++ [p];
     mail_categories := mail_categories m; attachments := attachments m |}.

Definition add_category (m : Mail) (c : list string) : Mail :=
  {| from_email := from_email m; html_content := html_content m;
     mail_subject := mail_subject m; mail_reply_to := mail_reply_to m;
     personalizations := personalizations m;
     mail_categories := mail_categories m ++ [c];
     attachments := attachments m |}.

Definition add_attachment (m : Mail) (a : Attachment) : Mail :=
  {| from_email := from_email m; html_content := html_content m;
     mail_subject := mail_subject m; mail_reply_to := mail_reply_to m;
     personalizations := personalizations m;
     mail_categories := mail_categories m;
     attachments := attachments m ++ [a] |}.

(** The client a mail is sent through: the one passed as [client], or
    [SendGridAPIClient(settings.SENDGRID_API_KEY)]. *)
Inductive sg_client :=
| SendGridAPIClient (api_key : option string)
| GivenClient (id : nat).

Record Response := {
  status_code : Z;
  body : string;
}.

(** The pieces of an f-string: literal text and interpolated values. *)
Inductive fragment :=
| Lit (s : string)
| FStr (s : string)
| FInt (n : Z)
| FOptStr (o : option string)
| FOptList (o : option (list string)).

Inductive smtp_op :=
| SmtpConnect (server : string)
| SmtpEhlo
| SmtpStarttls
| SmtpLogin (username password : option string)
| SmtpSendmail (from_addr : string) (to_addrs : list string) (msg : MIMEText)
| SmtpQuit.

(** What the module does to the outside world. *)
Inductive event :=
| LoggerError (msg : string)
| SentryMessage (msg : list fragment)
| Smtp (op : smtp_op)
| SendGridSend (client : sg_client) (mail : Mail).

Definition trace := list event.

(** A computation reads the log so far, may extend it, and either returns
    or raises. *)
Definition M (A : Type) : Type := trace -> outcome A * trace.

Definition ret {A} (a : A) : M A := fun t => (Returned a, t).

Definition bind {A B} (m : M A) (f : A -> M B) : M B := fun t =>
  match m t with
  | (Returned a, t') => f a t'
  | (Raised e, t') => (Raised e, t')
  end.

Notation "'let*' x ':=' m 'in' k" := (bind m (fun x => k))
  (at level 10, x name, m at level 100, k at level 200).
Notation "m >> k" := (bind m (fun _ => k))
  (at level 100, k at level 200, right associativity).

Definition lift {A} (o : outcome A) : M A := fun t => (o, t).

Definition emit (ev : event) : M unit := fun t => (Returned tt, t ++ [ev]).

(** [with e as x: body]: once the context is entered, [exit] runs whether
    [body] returns or raises; an exception of [exit] replaces the
    outcome of [body]. *)
Definition with_ {A} (enter : M unit) (exit : M unit) (body : M A) : M A :=
  enter >> fun t =>
    let '(r, t1) := body t in
    match exit t1 with
    | (Returned _, t2) => (r, t2)
    | (Raised e, t2) => (Raised e, t2)
    end.

(** [list + x]: defined when [x] is a list, [TypeError] otherwise. *)
Definition list_add (l : list string) (x : option addrs)
  : outcome (list string) :=
  match x with
  | Some (AddrList l') => Returned (l ++ l')
  | Some (AddrStr _) | None => Raised TypeError
  end.

(** The addresses visited by [for email in x], after
    [if isinstance(x, str): x = [x]]. *)
Definition addr_list (x : option addrs) : list string :=
  match x with
  | Some (AddrStr s) => [s]
  | Some (AddrList l) => l
  | None => []
  end.

Definition nl : string := String (ascii_of_nat 10) "".

Section Tasks.

Variable settings : Settings.

(** The outside world: how the SMTP server answers an operation and how
    the SendGrid client answers a send, given everything done so far. *)
Variable smtp_reply : trace -> smtp_op -> option exn.
Variable sendgrid_reply : trace -> sg_client -> Mail -> outcome Response.

(** [logger.error(msg)] *)
Definition logger_error (msg : string) : M unit := emit (LoggerError msg).

(** [sentry.log_message(msg)] *)
Definition sentry_log_message (msg : list fragment) : M unit :=
  emit (SentryMessage msg).

(** One call on the [smtplib.SMTP] object. *)
Definition smtp (op : smtp_op) : M unit := fun t =>
  match smtp_reply t op with
  | None => (Returned tt, t ++ [Smtp op])
  | Some e => (Raised e, t ++ [Smtp op])
  end.

(** [client.send(mail)] *)
Definition client_send (client : sg_client) (mail : Mail) : M Response :=
  fun t => (sendgrid_reply t client mail, t ++ [SendGridSend client mail]).

Definition _send_with_smtp
    (from_addr to_addr subject message : string)
    (ttls login : bool)
    (username password : option string)
    (bcc_addr : option addrs)
    (reply_to : option string) : M value :=
  let username := or_ username (MAIL_USERNAME settings) in
  let password := or_ password (MAIL_PASSWORD settings) in
  if login && (is_None username || is_None password) then
    logger_error "Mail username and password not set; skipping send." >>
    ret (VBool false)
  else
    let msg := MIMEText_new message "html" "utf-8" in
    let msg := set_header msg "Subject" subject in
    let msg := set_header msg "From" from_addr in
    let msg := set_header msg "To" to_addr in
    let msg :=
      match reply_to with
      | Some r => if truthy r then set_header msg "Reply-To" r else msg
      | None => msg
      end in
    let* recipients :=
      lift (list_add [to_addr] (or_ bcc_addr (Some (AddrList [])))) in
    with_ (smtp (SmtpConnect (MAIL_SERVER settings))) (smtp SmtpQuit)
      (smtp SmtpEhlo >>
       (if ttls then smtp SmtpStarttls >> smtp SmtpEhlo else ret tt) >>
       (if login then smtp (SmtpLogin username password) else ret tt) >>
       smtp (SmtpSendmail from_addr recipients msg)) >>
    ret (VBool true).

Definition _send_with_sendgrid
    (from_addr to_addr subject message : string)
    (categories : option (list string))
    (attachment_name : option string)
    (attachment_content : option content)
    (cc_addr bcc_addr : option addrs)
    (reply_to : option string)
    (client : option sg_client) : M value :=
  let in_allowed_list :=
    bool_decide (to_addr ∈ SENDGRID_EMAIL_WHITELIST settings) in
  if SENDGRID_WHITELIST_MODE settings && negb in_allowed_list then
    sentry_log_message
      [Lit "SENDGRID_WHITELIST_MODE is True. Failed to send emails to non-whitelisted recipient ";
       FStr to_addr; Lit "."] >>
    ret (VBool false)
  else
    let client :=
      match client with
      | Some c => c
      | None => SendGridAPIClient (SENDGRID_API_KEY settings)
      end in
    let mail := Mail_new from_addr message subject in
    let personalization := Personalization_new in
    let personalization := add_to personalization to_addr in
    let personalization :=
      if truthy cc_addr
      then fold_left add_cc (addr_list cc_addr) personalization
      else personalization in
    let personalization :=
      if truthy bcc_addr
      then fold_left add_bcc (addr_list bcc_addr) personalization
      else personalization in
    let mail :=
      match reply_to with
      | Some r => if truthy r then set_reply_to mail r else mail
      | None => mail
      end in
    let mail := add_personalization mail personalization in
    let mail :=
      match categories with
      | Some cs => if truthy cs then add_category mail cs else mail
      | None => mail
      end in
    let* mail :=
      match attachment_name, attachment_content with
      | Some name, Some content =>
          if truthy name && truthy content then
            let* encoded := lift (Base64.b64encode content) in
            ret (add_attachment mail
                   {| file_content := encoded; file_name := name;
                      disposition := "attachment" |})
          else ret mail
      | _, _ => ret mail
      end in
    let* response := client_send client mail in
    if negb (bool_decide (status_code response ∈ [200; 201; 202]%Z)) then
      sentry_log_message
        [FInt (status_code response);
         Lit " error response from sendgrid.";
         Lit "from_addr:  "; FStr from_addr; Lit nl;
         Lit "to_addr:  "; FStr to_addr; Lit nl;
         Lit "subject:  "; FStr subject; Lit nl;
         Lit "mimetype:  html"; Lit nl;
         Lit "message:  "; FStr (substring 0 30 (body response)); Lit nl;
         Lit "categories:  "; FOptList categories; Lit nl;
         Lit "attachment_name:  "; FOptStr attachment_name; Lit nl] >>
      ret VNone
    else
      ret (VBool true).

(** [reply_to] is used as an address when truthy; [None] stands for
    the falsy defaults ([False] here, [None] in the two helpers). The
    call passes no [cc_addr] and no [client]. *)
Definition send_email
    (from_addr to_addr subject message : string)
    (reply_to : option string)
    (ttls login : bool)
    (bcc_addr : option addrs)
    (username password : option string)
    (categories : option (list string))
    (attachment_name : option string)
    (attachment_content : option content) : M value :=
  if negb (USE_EMAIL settings) then
    ret VNone
  else if truthy (SENDGRID_API_KEY settings) then
    _send_with_sendgrid from_addr to_addr subject message categories
      attachment_name attachment_content None bcc_addr reply_to None
  else
    _send_with_smtp from_addr to_addr subject message ttls login
      username password bcc_addr reply_to.

End Tasks.

End Email.

(** ** [osf.models.Contributor] *)

Module Contributor.

Inductive db_error := IntegrityError (msg : string).

(** A model instance in memory; [pk] is [None] until the first save. *)
Record Contributor := {
  pk : option nat;
  user : nat;
  node : nat;
  visible : bool;
  is_curator : bool;
}.

(** The stored columns of one row of the contributor table. *)
Record row := {
  row_user : nat;
  row_node : nat;
  row_visible : bool;
  row_is_curator : bool;
}.

(** The table, keyed by primary key, and the next value of its sequence. *)
Record DB := {
  rows : gmap nat row;
  next_pk : nat;
}.

Definition empty_db : DB := {| rows := ∅; next_pk := 1 |}.

Definition to_row (c : Contributor) : row :=
  {| row_user := user c; row_node := node c;
     row_visible := visible c; row_is_curator := is_curator c |}.

Definition of_row (k : nat) (r : row) : Contributor :=
  {| pk := Some k; user := row_user r; node := row_node r;
     visible := row_visible r; is_curator := row_is_curator r |}.

Definition with_pk (c : Contributor) (k : nat) : Contributor :=
  {| pk := Some k; user := user c; node := node c;
     visible := visible c; is_curator := is_curator c |}.

(** Modelled from the spec: [Contributor.save] is missing from the sources
    at hand (only its tests are there). "A contributor cannot be both
    curator and visible simultaneously -- enforced at save time, raising an
    integrity error rather than persisting an inconsistent row." The
    message is the one the tests match. A valid instance is written under
    its primary key, a new one under the next key of the sequence. *)
Definition save (c : Contributor) (db : DB) : (db_error + Contributor) * DB :=
  if visible c && is_curator c then
    (inl (IntegrityError "Curators cannot be made bibliographic contributors"),
     db)
  else
    match pk c with
    | Some k =>
        (inr c, {| rows := <[k := to_row c]> (rows db);
                   next_pk := next_pk db |})
    | None =>
        let k := next_pk db in
        (inr (with_pk c k), {| rows := <[k := to_row c]> (rows db);
                               next_pk := S k |})
    end.

(** Modelled from the spec: [Contributor.objects.get(pk=k)] reads the
    stored row back ([None] where Django raises [DoesNotExist]). *)
Definition get (k : nat) (db : DB) : option Contributor :=
  of_row k <$> rows db !! k.

(** Modelled from the spec: [refresh_from_db] reloads the field values of
    an instance from its stored row. *)
Definition refresh_from_db (c : Contributor) (db : DB) : option Contributor :=
  match pk c with
  | Some k => get k db
  | None => None
  end.

(** The table after a sequence of save attempts, failed ones included. *)
Definition save_all (cs : list Contributor) (db : DB) : DB :=
  fold_left (fun d c => snd (save c d)) cs db.

(** No stored row is both visible and a curator. *)
Definition exclusive (db : DB) : Prop :=
  forall k r, rows db !! k = Some r ->
              row_visible r && row_is_curator r = false.

End Contributor.

(** ** [scripts.analytics.preprint_summary.PreprintSummary] *)

Module PreprintSummary.

Record PreprintProvider := { name : string }.

Record date := { year : Z; month : Z; day : Z }.

Inductive http_method := GET | POST.

(** A request to the search backend: the query asks for the preprints of
    one provider on one day. *)
Record request := {
  method : http_method;
  url : string;
  query_provider : string;
  query_day : date;
}.

(** The part of the backend's JSON answer that is read:
    [{"hits": {"total": n}}]. *)
Record response := { hits_total : Z }.

(** One entry of the result: [{'provider': {'name': .., 'total': ..}}]. *)
Record summary_event := {
  provider_name : string;
  provider_total : Z;
}.

Section GetEvents.

(** The backend's address, the providers in the database, and the
    backend's answer to each request. *)
Variable search_url : string.
Variable providers : list PreprintProvider.
Variable backend : request -> response.

Definition count_query (p : PreprintProvider) (d : date) : request :=
  {| method := POST; url := search_url;
     query_provider := name p; query_day := d |}.

(** Modelled from the spec: [PreprintSummary.get_events] is missing from
    the sources at hand (only its test is there). "Analytics script
    queries a search/analytics backend via HTTP POST and aggregates
    per-provider preprint counts for a given day." The result pairs the
    requests issued, in order, with the events returned. *)
Fixpoint get_events_from (ps : list PreprintProvider) (d : date)
  : list request * list summary_event :=
  match ps with
  | [] => ([], [])
  | p :: ps' =>
      let req := count_query p d in
      let resp := backend req in
      let '(reqs, evs) := get_events_from ps' d in
      (req :: reqs,
       {| provider_name := name p; provider_total := hits_total resp |}
         :: evs)
  end.

Definition get_events (d : date) : list request * list summary_event :=
  get_events_from providers d.

End GetEvents.

End PreprintSummary.

(** ** Vocabulary for the properties of the email module *)

Module EmailSpec.

Import Email.

(** The events a computation adds to the log [t]. *)
Definition effects {A} (m : M A) (t : trace) : list event :=
  drop (length t) (snd (m t)).

(** Every run of [m] only appends to the log, and only events in [P]. *)
Definition emits_only (P : event -> Prop) {A} (m : M A) : Prop :=
  forall t, exists new, snd (m t) = t ++ new /\ Forall P new.

Definition is_smtp (e : event) : bool :=
  match e with Smtp _ => true | _ => false end.

Definition is_sendgrid_send (e : event) : bool :=
  match e with SendGridSend _ _ => true | _ => false end.

(** The mails handed to [client.send], in order. *)
Definition sent_mails (l : list event) : list Mail :=
  flat_map (fun e => match e with SendGridSend _ m => [m] | _ => [] end) l.

(** The condition of the whitelist gate of [_send_with_sendgrid]. *)
Definition gate_closed (settings : Settings) (to_addr : string) : bool :=
  SENDGRID_WHITELIST_MODE settings
  && negb (bool_decide (to_addr ∈ SENDGRID_EMAIL_WHITELIST settings)).

(** [attachment_name and attachment_content] *)
Definition wants_attachment
    (attachment_name : option string)
    (attachment_content : option content) : bool :=
  truthy attachment_name && truthy attachment_content.

Definition is_bytes (attachment_content : option content) : bool :=
  match attachment_content with Some (CBytes _) => true | _ => false end.

Definition encodable
    (attachment_name : option string)
    (attachment_content : option content) : bool :=
  implb (wants_attachment attachment_name attachment_content)
        (is_bytes attachment_content).

(** [r] is a run from log [t] that hands [mail] to [client.send] and then
    follows the client's answer: an exception of the client propagates;
    status 200, 201 or 202 gives [True]; any other status is reported to
    sentry, with the status in the message, and gives [None]. *)
Definition sends_and_reports
    (sendgrid_reply : trace -> sg_client -> Mail -> outcome Response)
    (c : sg_client) (mail : Mail) (t : trace)
    (r : outcome value * trace) : Prop :=
  match sendgrid_reply t c mail with
  | Raised e => r = (Raised e, t ++ [SendGridSend c mail])
  | Returned resp =>
      if bool_decide (status_code resp ∈ [200; 201; 202]%Z)
      then r = (Returned (VBool true), t ++ [SendGridSend c mail])
      else exists msg,
             r = (Returned VNone,
                  t ++ [SendGridSend c mail; SentryMessage msg])
             /\ FInt (status_code resp) ∈ msg
             /\ FStr (substring 0 30 (body resp)) ∈ msg
  end.

(** Sample configurations and outside worlds. *)
Definition sendgrid_settings : Settings :=
  {| USE_EMAIL := true;
     SENDGRID_API_KEY := Some "SG.key";
     SENDGRID_WHITELIST_MODE := true;
     SENDGRID_EMAIL_WHITELIST := ["ok@osf.io"];
     MAIL_SERVER := "smtp.sendgrid.net";
     MAIL_USERNAME := None;
     MAIL_PASSWORD := None |}.

Definition smtp_settings : Settings :=
  {| USE_EMAIL := true;
     SENDGRID_API_KEY := None;
     SENDGRID_WHITELIST_MODE := false;
     SENDGRID_EMAIL_WHITELIST := [];
     MAIL_SERVER := "smtp.sendgrid.net";
     MAIL_USERNAME := Some "osf-smtp";
     MAIL_PASSWORD := Some "secret" |}.

Definition smtp_settings_no_password : Settings :=
  {| USE_EMAIL := true;
     SENDGRID_API_KEY := None;
     SENDGRID_WHITELIST_MODE := false;
     SENDGRID_EMAIL_WHITELIST := [];
     MAIL_SERVER := "smtp.sendgrid.net";
     MAIL_USERNAME := Some "osf-smtp";
     MAIL_PASSWORD := None |}.

Definition disabled_settings : Settings :=
  {| USE_EMAIL := false;
     SENDGRID_API_KEY := Some "SG.key";
     SENDGRID_WHITELIST_MODE := false;
     SENDGRID_EMAIL_WHITELIST := [];
     MAIL_SERVER := "smtp.sendgrid.net";
     MAIL_USERNAME := Some "osf-smtp";
     MAIL_PASSWORD := Some "secret" |}.

(** An SMTP server that accepts everything. *)
Definition smtp_accepts : trace -> smtp_op -> option exn :=
  fun _ _ => None.

(** A SendGrid client that answers every send with the given status. *)
Definition sendgrid_answers (status : Z)
  : trace -> sg_client -> Mail -> outcome Response :=
  fun _ _ _ => Returned {| status_code := status; body := "" |}.

End EmailSpec.

(** ** Vocabulary for the SMTP dialogue *)

Module SmtpSpec.

Import Email.

(** The condition under which [_send_with_smtp] gives up before sending. *)
Definition credentials_missing (settings : Settings) (login : bool)
    (username password : option string) : bool :=
  login && (is_None (or_ username (MAIL_USERNAME settings))
            || is_None (or_ password (MAIL_PASSWORD settings))).

(** The message [_send_with_smtp] is meant to build. *)
Definition smtp_message (from_addr to_addr subject message : string)
    (reply_to : option string) : MIMEText :=
  {| mime_payload := message;
     mime_subtype := "html";
     mime_charset := "utf-8";
     mime_headers :=
       [("Subject", subject); ("From", from_addr); ("To", to_addr)]
       ++ match reply_to with
          | Some r => if truthy r then [("Reply-To", r)] else []
          | None => []
          end |}.

(** What goes over an open connection before the message. *)
Definition handshake (ttls login : bool) (username password : option string)
  : list smtp_op :=
  [SmtpEhlo]
  ++ (if ttls then [SmtpStarttls; SmtpEhlo] else [])
  ++ (if login then [SmtpLogin username password] else []).

(** The whole dialogue of one successful send, the closing QUIT apart. *)
Definition session (settings : Settings) (ttls login : bool)
    (username password : option string)
    (from_addr : string) (rcpts : list string) (msg : MIMEText)
  : list smtp_op :=
  SmtpConnect (MAIL_SERVER settings)
  :: handshake ttls login username password
  ++ [SmtpSendmail from_addr rcpts msg].

(** [m] issues the operations of [ops] in order and stops at the first one
    that raises: it appends a prefix of [ops] to the log, all of [ops] if
    it returns. *)
Definition plays (ops : list smtp_op) {A} (m : M A) : Prop :=
  forall t, exists k,
    k <= length ops
    /\ snd (m t) = t ++ (Smtp <$> take k ops)
    /\ (forall a, fst (m t) = Returned a -> k = length ops).

Definition is_sendmail (e : event) : bool :=
  match e with Smtp (SmtpSendmail _ _ _) => true | _ => false end.

Definition is_connect (e : event) : bool :=
  match e with Smtp (SmtpConnect _) => true | _ => false end.


End SmtpSpec.

(** ** Vocabulary for the mail handed to SendGrid *)

Module SendGridSpec.

Import Email EmailSpec.

(** The recipients [_send_with_sendgrid] is meant to set: the one [To],
    and every [cc] and [bcc] address, a single [str] counting as one. *)
Definition expected_personalization (to_addr : string)
    (cc_addr bcc_addr : option addrs) : Personalization :=
  {| tos := [to_addr];
     ccs := if truthy cc_addr then addr_list cc_addr else [];
     bccs := if truthy bcc_addr then addr_list bcc_addr else [] |}.

Definition expected_attachments (attachment_name : option string)
    (attachment_content : option content) : list Attachment :=
  match attachment_name, attachment_content with
  | Some name, Some (CBytes b) =>
      if truthy name && truthy b
      then [{| file_content := Base64.encode b; file_name := name;
               disposition := "attachment" |}]
      else []
  | _, _ => []
  end.

Definition expected_mail (from_addr to_addr subject message : string)
    (categories : option (list string))
    (attachment_name : option string) (attachment_content : option content)
    (cc_addr bcc_addr : option addrs) (reply_to : option string) : Mail :=
  {| from_email := from_addr;
     html_content := message;
     mail_subject := subject;
     mail_reply_to := if truthy reply_to then reply_to else None;
     personalizations := [expected_personalization to_addr cc_addr bcc_addr];
     mail_categories :=
       match categories with
       | Some cs => if truthy cs then [cs] else []
       | None => []
       end;
     attachments := expected_attachments attachment_name attachment_content |}.


(** A SendGrid client that raises on every send. *)
Definition sendgrid_raises (e : exn)
  : trace -> sg_client -> Mail -> outcome Response :=
  fun _ _ _ => Raised e.

(** [settings] with other whitelist values. *)
Definition with_whitelist (settings : Settings) (mode : bool)
    (whitelist : list string) : Settings :=
  {| USE_EMAIL := USE_EMAIL settings;
     SENDGRID_API_KEY := SENDGRID_API_KEY settings;
     SENDGRID_WHITELIST_MODE := mode;
     SENDGRID_EMAIL_WHITELIST := whitelist;
     MAIL_SERVER := MAIL_SERVER settings;
     MAIL_USERNAME := MAIL_USERNAME settings;
     MAIL_PASSWORD := MAIL_PASSWORD settings |}.

End SendGridSpec.

(** * Properties *)

Example b64_rfc4648_f : Base64.encode (list_byte_of_string "f") = "Zg==".
Proof. reflexivity. Qed.
Example b64_rfc4648_fo : Base64.encode (list_byte_of_string "fo") = "Zm8=".
Proof. reflexivity. Qed.
Example b64_rfc4648_foobar :
  Base64.encode (list_byte_of_string "foobar") = "Zm9vYmFy".
Proof. reflexivity. Qed.
Example b64_hello_world :
  Base64.encode (list_byte_of_string "Hello, World!") = "SGVsbG8sIFdvcmxkIQ==".
Proof. reflexivity. Qed.

(** ** The contributor table *)

Section ContributorProperties.

Import Contributor.

Lemma save_rejected (c : Contributor) (db : DB) :
  visible c && is_curator c = true ->
  save c db =
    (inl (IntegrityError "Curators cannot be made bibliographic contributors"),
     db).
Proof. intros H. unfold save. now rewrite H. Qed.

Lemma insert_exclusive (db : DB) (k n : nat) (r : row) :
  exclusive db ->
  row_visible r && row_is_curator r = false ->
  exclusive {| rows := <[k := r]> (rows db); next_pk := n |}.
Proof.
  intros Hdb Hr k' r'. cbn.
  destruct (decide (k = k')) as [-> | Hne].
  - rewrite lookup_insert_eq. intros [= <-]. exact Hr.
  - rewrite lookup_insert_ne by exact Hne. apply Hdb.
Qed.

Lemma save_exclusive (c : Contributor) (db : DB) :
  exclusive db -> exclusive (snd (save c db)).
Proof.
  intros Hdb. unfold save.
  destruct (visible c && is_curator c) eqn:Hflags; [exact Hdb |].
  destruct (pk c); cbn; apply insert_exclusive; auto.
Qed.

Lemma save_all_exclusive (cs : list Contributor) :
  forall db, exclusive db -> exclusive (save_all cs db).
Proof.
  induction cs as [| c cs IH]; intros db Hdb; [exact Hdb |].
  cbn. apply IH, save_exclusive, Hdb.
Qed.

Lemma empty_db_exclusive : exclusive empty_db.
Proof. intros k r. cbn. rewrite lookup_empty. discriminate. Qed.

Lemma save_valid (c : Contributor) (db : DB) :
  visible c && is_curator c = false ->
  exists k,
    (pk c = Some k \/ pk c = None /\ k = next_pk db) /\
    fst (save c db) = inr (with_pk c k) /\
    rows (snd (save c db)) !! k = Some (to_row c).
Proof.
  intros H. unfold save. rewrite H.
  destruct c as [[k |] u n v cu]; cbn.
  - exists k. split; [now left |]. split; [reflexivity |].
    apply lookup_insert_eq.
  - exists (next_pk db). split; [now right |]. split; [reflexivity |].
    apply lookup_insert_eq.
Qed.

(** C1. A contributor with [visible] and [is_curator] both set is never
    persisted: [save] raises the integrity error, the table is left as it
    was, so reloading the contributor yields what was stored before the
    failed save; and whatever saves are attempted next, or from an empty
    table, no stored row ever has both flags set. *)
Theorem save_visible_curator_raises (c : Contributor) (db : DB) :
  visible c = true ->
  is_curator c = true ->
  save c db =
    (inl (IntegrityError "Curators cannot be made bibliographic contributors"),
     db)
  /\ refresh_from_db c (snd (save c db)) = refresh_from_db c db
  /\ (exclusive db -> forall cs, exclusive (save_all (c :: cs) db))
  /\ forall cs, exclusive (save_all cs empty_db).
Proof.
  intros Hv Hc.
  assert (Hrej := save_rejected c db). rewrite Hv, Hc in Hrej.
  specialize (Hrej eq_refl).
  split; [exact Hrej |]. rewrite Hrej. cbn [snd].
  split; [reflexivity |]. split.
  - intros Hdb cs. apply save_all_exclusive. exact Hdb.
  - intros cs. apply save_all_exclusive, empty_db_exclusive.
Qed.

Lemma save_visible_curator_raises_witness :
  let c := {| pk := Some 1; user := 7; node := 3;
              visible := true; is_curator := true |} in
  let db := snd (save {| pk := None; user := 7; node := 3;
                         visible := false; is_curator := true |} empty_db) in
  fst (save c db) =
    inl (IntegrityError "Curators cannot be made bibliographic contributors")
  /\ visible <$> refresh_from_db c (snd (save c db)) = Some false.
Proof.
  intros c db.
  destruct (save_visible_curator_raises c db eq_refl eq_refl)
    as (Hsave & Hreload & _).
  split.
  - rewrite Hsave. reflexivity.
  - rewrite Hreload. vm_compute. reflexivity.
Defined.

(** C7. A contributor with [is_curator = false] and [visible = true] is
    saved, and reloading it from the table gives back the same user, node,
    [visible] and [is_curator]: the reloaded instance is the saved one. *)
Theorem save_reload_regular_visible (c : Contributor) (db : DB) :
  is_curator c = false ->
  visible c = true ->
  exists saved reloaded,
    fst (save c db) = inr saved
    /\ refresh_from_db saved (snd (save c db)) = Some reloaded
    /\ reloaded = saved
    /\ user reloaded = user c
    /\ node reloaded = node c
    /\ visible reloaded = true
    /\ is_curator reloaded = false.
Proof.
  intros Hc Hv.
  destruct (save_valid c db) as (k & _ & Hsaved & Hrow).
  { rewrite Hc. apply andb_false_r. }
  exists (with_pk c k), (with_pk c k).
  split; [exact Hsaved |]. split.
  - unfold refresh_from_db, get. cbn [pk with_pk]. rewrite Hrow. reflexivity.
  - cbn. auto.
Qed.

Lemma save_reload_regular_visible_witness :
  exists saved reloaded,
    fst (save {| pk := None; user := 5; node := 9;
                 visible := true; is_curator := false |} empty_db)
      = inr saved
    /\ refresh_from_db saved
         (snd (save {| pk := None; user := 5; node := 9;
                       visible := true; is_curator := false |} empty_db))
       = Some reloaded
    /\ reloaded = saved
    /\ user reloaded = 5
    /\ node reloaded = 9
    /\ visible reloaded = true
    /\ is_curator reloaded = false.
Proof.
  exact (save_reload_regular_visible
           {| pk := None; user := 5; node := 9;
              visible := true; is_curator := false |}
           empty_db eq_refl eq_refl).
Defined.

End ContributorProperties.

(** ** The preprint summary *)

Section PreprintSummaryProperties.

Import PreprintSummary.

Variable search_url : string.
Variable backend : request -> response.

Lemma get_events_from_lengths (ps : list PreprintProvider) (d : date) :
  length (fst (get_events_from search_url backend ps d)) = length ps
  /\ length (snd (get_events_from search_url backend ps d)) = length ps.
Proof.
  induction ps as [| p ps [IHr IHe]]; [split; reflexivity |].
  cbn. destruct (get_events_from search_url backend ps d) as [reqs evs].
  cbn in *. split; congruence.
Qed.

Lemma get_events_from_lookup (ps : list PreprintProvider) (d : date) :
  forall (i : nat) (p : PreprintProvider),
    ps !! i = Some p ->
    fst (get_events_from search_url backend ps d) !! i
      = Some (count_query search_url p d)
    /\ snd (get_events_from search_url backend ps d) !! i
      = Some {| provider_name := name p;
                provider_total :=
                  hits_total (backend (count_query search_url p d)) |}.
Proof.
  induction ps as [| q ps IH]; intros i p Hp; [discriminate |].
  cbn. destruct (get_events_from search_url backend ps d) as [reqs evs] eqn:E.
  destruct i as [| i]; cbn in *.
  - injection Hp as ->. split; reflexivity.
  - apply IH, Hp.
Qed.

(** C8. Queried for a day, the summary sends the backend one POST per
    preprint provider and returns one event per provider, in order: the
    event carries the provider's name and the total the backend reported
    in its answer to that provider's query for that day. *)
Theorem get_events_one_event_per_provider
    (providers : list PreprintProvider) (d : date) :
  let requests := fst (get_events search_url providers backend d) in
  let events := snd (get_events search_url providers backend d) in
  length events = length providers
  /\ length requests = length providers
  /\ Forall (fun req => method req = POST /\ url req = search_url) requests
  /\ forall (i : nat) (p : PreprintProvider),
       providers !! i = Some p ->
       exists req,
         requests !! i = Some req
         /\ query_provider req = name p
         /\ query_day req = d
         /\ events !! i =
              Some {| provider_name := name p;
                      provider_total := hits_total (backend req) |}.
Proof.
  cbv zeta. unfold get_events.
  destruct (get_events_from_lengths providers d) as [Hr He].
  split; [exact He |]. split; [exact Hr |]. split.
  - apply List.Forall_forall. intros req Hin.
    apply list_elem_of_In, list_elem_of_lookup in Hin. destruct Hin as [i Hi].
    destruct (providers !! i) as [p |] eqn:Hp.
    + destruct (get_events_from_lookup providers d i p Hp) as [Hreq _].
      rewrite Hreq in Hi. injection Hi as <-. split; reflexivity.
    + apply lookup_ge_None in Hp. apply lookup_lt_Some in Hi. lia.
  - intros i p Hp.
    destruct (get_events_from_lookup providers d i p Hp) as [Hreq Hev].
    exists (count_query search_url p d). auto.
Qed.

End PreprintSummaryProperties.

(** ** The effect log *)

Section EffectLog.

Import Email EmailSpec.

Lemma effects_app {A} (m : M A) (t new : trace) :
  snd (m t) = t ++ new -> effects m t = new.
Proof. intros H. unfold effects. rewrite H. apply drop_app_length. Qed.

Lemma emits_only_effects {A} (P : event -> Prop) (m : M A) (t : trace) :
  emits_only P m ->
  snd (m t) = t ++ effects m t /\ Forall P (effects m t).
Proof.
  intros Hm. destruct (Hm t) as (new & Hnew & HP).
  rewrite (effects_app m t new Hnew). auto.
Qed.

Lemma emits_only_ret {A} (P : event -> Prop) (a : A) : emits_only P (ret a).
Proof. intros t. exists []. cbn. rewrite app_nil_r. auto. Qed.

Lemma emits_only_lift {A} (P : event -> Prop) (o : outcome A) :
  emits_only P (lift o).
Proof. intros t. exists []. cbn. rewrite app_nil_r. auto. Qed.

Lemma emits_only_emit (P : event -> Prop) (ev : event) :
  P ev -> emits_only P (emit ev).
Proof. intros H t. exists [ev]. cbn. auto. Qed.

Lemma emits_only_bind {A B} (P : event -> Prop) (m : M A) (f : A -> M B) :
  emits_only P m -> (forall a, emits_only P (f a)) -> emits_only P (bind m f).
Proof.
  intros Hm Hf t. unfold bind.
  destruct (Hm t) as (new1 & H1 & HP1).
  destruct (m t) as [[a | e] t1]; cbn in H1; subst t1.
  - destruct (Hf a (t ++ new1)) as (new2 & H2 & HP2).
    exists (new1 ++ new2). rewrite H2, <- app_assoc. split; [reflexivity |].
    apply Forall_app; auto.
  - exists new1. auto.
Qed.

Lemma emits_only_smtp (P : event -> Prop) reply (op : smtp_op) :
  P (Smtp op) -> emits_only P (smtp reply op).
Proof.
  intros H t. exists [Smtp op]. unfold smtp.
  destruct (reply t op); cbn; auto.
Qed.

Lemma emits_only_client_send (P : event -> Prop) reply c (mail : Mail) :
  P (SendGridSend c mail) -> emits_only P (client_send reply c mail).
Proof. intros H t. exists [SendGridSend c mail]. cbn. auto. Qed.

Lemma emits_only_with {A} (P : event -> Prop) (enter exit : M unit)
    (body : M A) :
  emits_only P enter -> emits_only P exit -> emits_only P body ->
  emits_only P (with_ enter exit body).
Proof.
  intros Hen Hex Hb. unfold with_. apply emits_only_bind; [exact Hen |].
  intros _ t.
  destruct (Hb t) as (new1 & H1 & HP1).
  destruct (body t) as [r t1]; cbn in H1; subst t1.
  destruct (Hex (t ++ new1)) as (new2 & H2 & HP2).
  exists (new1 ++ new2).
  destruct (exit (t ++ new1)) as [[u | e] t2]; cbn in *; subst t2;
    rewrite <- app_assoc; (split; [reflexivity | apply Forall_app; auto]).
Qed.

Lemma emits_only_lift_bind {A B} (P : event -> Prop) (o : outcome A)
    (f : A -> M B) :
  (forall a, o = Returned a -> emits_only P (f a)) ->
  emits_only P (bind (lift o) f).
Proof.
  intros Hf t. unfold bind, lift. destruct o as [a | e].
  - exact (Hf a eq_refl t).
  - exists []. cbn. rewrite app_nil_r. auto.
Qed.

Lemma smtp_accepted reply (op : smtp_op) (t : trace) :
  (forall t' op', reply t' op' = None) ->
  smtp reply op t = (Returned tt, t ++ [Smtp op]).
Proof. intros H. unfold smtp. rewrite H. reflexivity. Qed.

Lemma emits_only_if {A} (P : event -> Prop) (b : bool) (m1 m2 : M A) :
  emits_only P m1 -> emits_only P m2 -> emits_only P (if b then m1 else m2).
Proof. destruct b; auto. Qed.

End EffectLog.

Ltac emits_step :=
  first
    [ apply emits_only_ret
    | apply emits_only_lift
    | apply emits_only_emit
    | apply emits_only_smtp
    | apply emits_only_client_send
    | apply emits_only_if
    | apply emits_only_with
    | apply emits_only_bind; [| intros ?] ].

(** ** The SMTP path *)

Section SmtpProperties.

Import Email EmailSpec.

Variable settings : Settings.
Variable smtp_reply : trace -> smtp_op -> option exn.

(** The SMTP path never touches the SendGrid client. *)
Lemma _send_with_smtp_no_sendgrid
    from_addr to_addr subject message ttls login username password
    bcc_addr reply_to :
  emits_only (fun e => is_sendgrid_send e = false)
    (_send_with_smtp settings smtp_reply from_addr to_addr subject message
       ttls login username password bcc_addr reply_to).
Proof.
  unfold _send_with_smtp, logger_error.
  repeat emits_step; reflexivity.
Qed.

(** C5. With [login] required, when the username or the password is still
    [None] after falling back to [settings.MAIL_USERNAME] and
    [settings.MAIL_PASSWORD], [_send_with_smtp] logs one error, returns
    [False], and performs no SMTP operation at all. *)
Theorem smtp_missing_credentials_abort
    from_addr to_addr subject message ttls login username password
    bcc_addr reply_to (t : trace) :
  login = true ->
  or_ username (MAIL_USERNAME settings) = None
  \/ or_ password (MAIL_PASSWORD settings) = None ->
  let run :=
    _send_with_smtp settings smtp_reply from_addr to_addr subject message
      ttls login username password bcc_addr reply_to in
  run t =
    (Returned (VBool false),
     t ++ [LoggerError "Mail username and password not set; skipping send."])
  /\ Forall (fun e => is_smtp e = false) (effects run t).
Proof.
  intros -> Hmissing run.
  assert (Hrun : run t =
    (Returned (VBool false),
     t ++ [LoggerError "Mail username and password not set; skipping send."])).
  { subst run. unfold _send_with_smtp.
    destruct Hmissing as [-> | ->]; cbn; [reflexivity |].
    rewrite orb_true_r. reflexivity. }
  split; [exact Hrun |].
  rewrite (effects_app run t _ (f_equal snd Hrun)).
  repeat constructor.
Qed.

(** C9. The envelope of every [sendmail] issued on the SMTP path is
    [to_addr] followed by the [bcc_addr] list (just [to_addr] when
    [bcc_addr] is [None]), so every bcc address is an envelope recipient,
    while the message carries [to_addr] in its [To] header and has no
    [Bcc] or [Cc] header. When the credentials are there and the server
    accepts every operation, that [sendmail] is indeed issued, between the
    connection set-up and the closing of the connection, and the call
    returns [True]. *)
Theorem smtp_envelope_is_to_then_bcc
    from_addr to_addr subject message ttls login username password
    (bcc_addr : option (list string)) reply_to (t : trace) :
  let bccs := default [] bcc_addr in
  let run :=
    _send_with_smtp settings smtp_reply from_addr to_addr subject message
      ttls login username password (AddrList <$> bcc_addr) reply_to in
  (forall f rcpts m,
      Smtp (SmtpSendmail f rcpts m) ∈ effects run t ->
      f = from_addr
      /\ rcpts = to_addr :: bccs
      /\ (forall b, b ∈ bccs -> b ∈ rcpts)
      /\ get_header m "To" = Some to_addr
      /\ get_header m "Bcc" = None
      /\ get_header m "Cc" = None)
  /\ (login && (is_None (or_ username (MAIL_USERNAME settings))
                || is_None (or_ password (MAIL_PASSWORD settings))) = false ->
      (forall t' op, smtp_reply t' op = None) ->
      fst (run t) = Returned (VBool true)
      /\ exists m,
           effects run t =
             [Smtp (SmtpConnect (MAIL_SERVER settings)); Smtp SmtpEhlo]
             ++ (if ttls then [Smtp SmtpStarttls; Smtp SmtpEhlo] else [])
             ++ (if login
                 then [Smtp (SmtpLogin
                               (or_ username (MAIL_USERNAME settings))
                               (or_ password (MAIL_PASSWORD settings)))]
                 else [])
             ++ [Smtp (SmtpSendmail from_addr (to_addr :: bccs) m);
                 Smtp SmtpQuit]).
Proof.
  intros bccs run.
  assert (Hrcpts :
    list_add [to_addr] (or_ (AddrList <$> bcc_addr) (Some (AddrList [])))
    = Returned (to_addr :: bccs)).
  { subst bccs. destruct bcc_addr as [[| b l] |]; reflexivity. }
  split.
  - set (P := fun e : event =>
      forall f rcpts m, e = Smtp (SmtpSendmail f rcpts m) ->
        f = from_addr
        /\ rcpts = to_addr :: bccs
        /\ (forall b, b ∈ bccs -> b ∈ rcpts)
        /\ get_header m "To" = Some to_addr
        /\ get_header m "Bcc" = None
        /\ get_header m "Cc" = None).
    assert (Hrun : emits_only P run).
    { subst run. unfold _send_with_smtp, logger_error.
      apply emits_only_if.
      - repeat emits_step. intros f rcpts m [=].
      - rewrite Hrcpts. apply emits_only_lift_bind. intros rcpts [= <-].
        repeat emits_step; intros f rcpts m [=]; subst.
        split; [reflexivity |]. split; [reflexivity |].
        split; [intros b Hb; now apply list_elem_of_further |].
        destruct reply_to as [[| c r] |]; cbn; auto. }
    destruct (emits_only_effects P run t Hrun) as [_ Hall].
    intros f rcpts m Hin.
    rewrite List.Forall_forall in Hall.
    apply (Hall _ (proj1 (list_elem_of_In _ _) Hin)). reflexivity.
  - intros Hgate Haccept.
    assert (Hfull : exists m,
      run t =
        (Returned (VBool true),
         t ++ [Smtp (SmtpConnect (MAIL_SERVER settings)); Smtp SmtpEhlo]
           ++ (if ttls then [Smtp SmtpStarttls; Smtp SmtpEhlo] else [])
           ++ (if login
               then [Smtp (SmtpLogin
                             (or_ username (MAIL_USERNAME settings))
                             (or_ password (MAIL_PASSWORD settings)))]
               else [])
           ++ [Smtp (SmtpSendmail from_addr (to_addr :: bccs) m);
               Smtp SmtpQuit])).
    { subst run. unfold _send_with_smtp. rewrite Hgate, Hrcpts.
      eexists. unfold with_, bind, lift, ret.
      rewrite !(smtp_accepted smtp_reply) by exact Haccept.
      destruct ttls, login; cbn;
        rewrite ?(smtp_accepted smtp_reply) by exact Haccept;
        cbn; rewrite <- ?app_assoc; reflexivity. }
    destruct Hfull as [m Hfull]. rewrite Hfull. split; [reflexivity |].
    exists m. apply effects_app. rewrite Hfull. reflexivity.
Qed.

End SmtpProperties.

(** ** The SendGrid path *)

Section SendGridProperties.

Import Email EmailSpec.

Lemma tos_fold_add_cc (l : list string) :
  forall p, tos (fold_left add_cc l p) = tos p.
Proof. induction l as [| a l IH]; intros p; cbn; [| rewrite IH]; reflexivity. Qed.

Lemma tos_fold_add_bcc (l : list string) :
  forall p, tos (fold_left add_bcc l p) = tos p.
Proof. induction l as [| a l IH]; intros p; cbn; [| rewrite IH]; reflexivity. Qed.

(** The SendGrid path never touches the SMTP server. *)
Lemma _send_with_sendgrid_no_smtp settings sendgrid_reply
    from_addr to_addr subject message categories attachment_name
    attachment_content cc_addr bcc_addr reply_to client :
  emits_only (fun e => is_smtp e = false)
    (_send_with_sendgrid settings sendgrid_reply from_addr to_addr subject
       message categories attachment_name attachment_content cc_addr
       bcc_addr reply_to client).
Proof.
  unfold _send_with_sendgrid, sentry_log_message.
  apply emits_only_if; [repeat emits_step; reflexivity |].
  apply emits_only_bind.
  - destruct attachment_name, attachment_content; repeat emits_step.
  - intros mail. repeat emits_step; reflexivity.
Qed.

(** Past the whitelist gate, the run is determined by a mail [m0] that
    does not depend on the attachment arguments: without an attachment
    [m0] itself is sent, with a [bytes] attachment [m0] plus that
    attachment, and with any other attachment content [b64encode] raises
    before anything is sent. *)
Lemma sendgrid_open_run from_addr to_addr subject message categories
    cc_addr bcc_addr reply_to :
  exists m0 : Mail,
    (forall settings sendgrid_reply attachment_name attachment_content
            client t,
        gate_closed settings to_addr = false ->
        let run :=
          _send_with_sendgrid settings sendgrid_reply from_addr to_addr
            subject message categories attachment_name attachment_content
            cc_addr bcc_addr reply_to client in
        let c := default (SendGridAPIClient (SENDGRID_API_KEY settings))
                         client in
        (wants_attachment attachment_name attachment_content = false ->
         sends_and_reports sendgrid_reply c m0 t (run t))
        /\ (forall name b,
               wants_attachment attachment_name attachment_content = true ->
               attachment_name = Some name ->
               attachment_content = Some (CBytes b) ->
               sends_and_reports sendgrid_reply c
                 (add_attachment m0
                    {| file_content := Base64.encode b; file_name := name;
                       disposition := "attachment" |})
                 t (run t))
        /\ (wants_attachment attachment_name attachment_content = true ->
            is_bytes attachment_content = false ->
            run t = (Raised TypeError, t)))
    /\ attachments m0 = []
    /\ from_email m0 = from_addr
    /\ html_content m0 = message
    /\ mail_subject m0 = subject
    /\ exists p, personalizations m0 = [p] /\ tos p = [to_addr].
Proof.
  eexists. split.
  - intros settings sendgrid_reply attachment_name attachment_content
      client t Hgate run c.
    unfold gate_closed in Hgate.
    assert (Hfinish : forall mail,
      sends_and_reports sendgrid_reply c mail t
        ((let* response := client_send sendgrid_reply c mail in
          if negb (bool_decide (status_code response ∈ [200; 201; 202]%Z))
          then
            sentry_log_message
              [FInt (status_code response);
               Lit " error response from sendgrid.";
               Lit "from_addr:  "; FStr from_addr; Lit nl;
               Lit "to_addr:  "; FStr to_addr; Lit nl;
               Lit "subject:  "; FStr subject; Lit nl;
               Lit "mimetype:  html"; Lit nl;
               Lit "message:  "; FStr (substring 0 30 (body response));
               Lit nl;
               Lit "categories:  "; FOptList categories; Lit nl;
               Lit "attachment_name:  "; FOptStr attachment_name; Lit nl] >>
            ret VNone
          else ret (VBool true)) t)).
    { intros mail. unfold sends_and_reports, bind, client_send.
      destruct (sendgrid_reply t c mail) as [resp | e]; [| reflexivity].
      destruct (bool_decide (status_code resp ∈ [200; 201; 202]%Z)); cbn.
      - reflexivity.
      - eexists. split; [rewrite <- app_assoc; reflexivity |].
        split; [apply list_elem_of_here |].
        repeat first [apply list_elem_of_here | apply list_elem_of_further]. }
    subst run. unfold _send_with_sendgrid. cbv zeta. rewrite Hgate.
    fold c. split; [| split].
    + intros Hwants. unfold wants_attachment in Hwants.
      destruct attachment_name as [name |], attachment_content as [ac |];
        cbn in Hwants; try rewrite Hwants; apply Hfinish.
    + intros name b Hwants -> ->.
      change (truthy name && truthy (CBytes b) = true) in Hwants.
      rewrite Hwants. apply Hfinish.
    + intros Hwants Hbytes. unfold wants_attachment in Hwants.
      destruct attachment_content as [ac |].
      2: { destruct attachment_name; cbn in Hwants;
           rewrite ?andb_false_r in Hwants; discriminate Hwants. }
      destruct attachment_name as [name |]; [| discriminate Hwants].
      change (truthy name && truthy ac = true) in Hwants. rewrite Hwants.
      destruct ac; try discriminate Hbytes; reflexivity.
  - destruct reply_to as [[| ? ?] |], categories as [[| ? ?] |]; cbn;
      (split; [reflexivity |]); (split; [reflexivity |]);
      (split; [reflexivity |]); (split; [reflexivity |]);
      eexists; (split; [reflexivity |]);
      destruct (truthy cc_addr), (truthy bcc_addr);
      rewrite ?tos_fold_add_bcc, ?tos_fold_add_cc; reflexivity.
Qed.

Lemma sends_and_reports_trace sendgrid_reply c (m : Mail) (t : trace) r :
  sends_and_reports sendgrid_reply c m t r ->
  exists rest,
    snd r = t ++ SendGridSend c m :: rest
    /\ (rest = [] \/ exists msg, rest = [SentryMessage msg])
    /\ sent_mails (drop (length t) (snd r)) = [m].
Proof.
  unfold sends_and_reports.
  destruct (sendgrid_reply t c m) as [resp | e].
  - destruct (bool_decide (status_code resp ∈ [200; 201; 202]%Z)).
    + intros ->. exists []. cbn. rewrite drop_app_length. auto.
    + intros (msg & -> & _). exists [SentryMessage msg]. cbn.
      rewrite drop_app_length. eauto.
  - intros ->. exists []. cbn. rewrite drop_app_length. auto.
Qed.

Lemma gate_closed_true (settings : Settings) (to_addr : string) :
  gate_closed settings to_addr = true <->
  SENDGRID_WHITELIST_MODE settings = true
  /\ to_addr ∉ SENDGRID_EMAIL_WHITELIST settings.
Proof.
  unfold gate_closed.
  rewrite andb_true_iff, negb_true_iff, bool_decide_eq_false. reflexivity.
Qed.

Lemma gate_closed_false (settings : Settings) (to_addr : string) :
  gate_closed settings to_addr = false <->
  SENDGRID_WHITELIST_MODE settings = false
  \/ to_addr ∈ SENDGRID_EMAIL_WHITELIST settings.
Proof.
  unfold gate_closed.
  rewrite andb_false_iff, negb_false_iff, bool_decide_eq_true. reflexivity.
Qed.

Lemma encodable_cases attachment_name attachment_content :
  encodable attachment_name attachment_content = true ->
  wants_attachment attachment_name attachment_content = false
  \/ exists name b,
       wants_attachment attachment_name attachment_content = true
       /\ attachment_name = Some name
       /\ attachment_content = Some (CBytes b).
Proof.
  unfold encodable.
  destruct (wants_attachment attachment_name attachment_content) eqn:Hw;
    [| now left].
  cbn. intros Hb. right.
  destruct attachment_content as [[s | b | b] |]; try discriminate Hb.
  destruct attachment_name as [name |]; [| discriminate Hw].
  exists name, b. auto.
Qed.

(** What holds of attachments when the content is [bytes] or there is
    nothing to attach: exactly one mail is sent; it is the mail [m0] that
    the same call without attachment arguments sends, with one attachment
    added, holding the base64 text of the content, when both
    [attachment_name] and [attachment_content] are truthy, and [m0] itself
    otherwise. *)
Lemma sendgrid_attachment_when_encodable settings sendgrid_reply
    from_addr to_addr subject message categories attachment_name
    attachment_content cc_addr bcc_addr reply_to client (t : trace) :
  gate_closed settings to_addr = false ->
  encodable attachment_name attachment_content = true ->
  let run :=
    _send_with_sendgrid settings sendgrid_reply from_addr to_addr subject
      message categories attachment_name attachment_content cc_addr
      bcc_addr reply_to client in
  let run0 :=
    _send_with_sendgrid settings sendgrid_reply from_addr to_addr subject
      message categories None None cc_addr bcc_addr reply_to client in
  exists m0,
    sent_mails (effects run0 t) = [m0]
    /\ attachments m0 = []
    /\ match attachment_name, attachment_content with
       | Some name, Some (CBytes b) =>
           if wants_attachment attachment_name attachment_content
           then sent_mails (effects run t) =
                  [add_attachment m0
                     {| file_content := Base64.encode b; file_name := name;
                        disposition := "attachment" |}]
           else sent_mails (effects run t) = [m0]
       | _, _ => sent_mails (effects run t) = [m0]
       end.
Proof.
  intros Hgate Henc run run0.
  destruct (sendgrid_open_run from_addr to_addr subject message categories
              cc_addr bcc_addr reply_to) as (m0 & Hrun & Hatt & _).
  exists m0.
  destruct (Hrun settings sendgrid_reply None None client t Hgate)
    as (H0 & _ & _).
  apply sends_and_reports_trace in H0 as (_ & _ & _ & H0); [| reflexivity].
  split; [exact H0 |]. split; [exact Hatt |].
  destruct (Hrun settings sendgrid_reply attachment_name attachment_content
              client t Hgate) as (Hno & Hyes & _).
  destruct (encodable_cases _ _ Henc) as [Hw | (name & b & Hw & -> & ->)].
  - pose proof (Hno Hw) as Hs.
    apply sends_and_reports_trace in Hs as (_ & _ & _ & Hs).
    change (sent_mails (effects run t) = [m0]) in Hs.
    destruct attachment_name, attachment_content as [[] |]; try exact Hs.
    rewrite Hw. exact Hs.
  - rewrite Hw.
    specialize (Hyes name b Hw eq_refl eq_refl).
    apply sends_and_reports_trace in Hyes as (_ & _ & _ & Hyes).
    exact Hyes.
Qed.

End SendGridProperties.

Section SendGridClaims.

Import Email EmailSpec.

Variable settings : Settings.
Variable sendgrid_reply : trace -> sg_client -> Mail -> outcome Response.

(** C6. With whitelist mode on and [to_addr] outside
    [settings.SENDGRID_EMAIL_WHITELIST], [_send_with_sendgrid] reports one
    message naming the recipient to sentry, returns [False], and hands
    nothing to the client. With whitelist mode off, or [to_addr] in the
    whitelist, the send proceeds: no rejection is reported and the mail,
    addressed to [to_addr], is handed to [client.send] exactly once, as
    the first effect of the call. (The one way past the gate that stops
    short of [client.send] is an attachment content that [b64encode] does
    not accept, which raises [TypeError].) *)
Theorem sendgrid_whitelist_gate
    from_addr to_addr subject message categories attachment_name
    attachment_content cc_addr bcc_addr reply_to client (t : trace) :
  let run :=
    _send_with_sendgrid settings sendgrid_reply from_addr to_addr subject
      message categories attachment_name attachment_content cc_addr
      bcc_addr reply_to client in
  (SENDGRID_WHITELIST_MODE settings = true ->
   to_addr ∉ SENDGRID_EMAIL_WHITELIST settings ->
   (exists msg,
       run t = (Returned (VBool false), t ++ [SentryMessage msg])
       /\ FStr to_addr ∈ msg)
   /\ sent_mails (effects run t) = [])
  /\ (SENDGRID_WHITELIST_MODE settings = false
      \/ to_addr ∈ SENDGRID_EMAIL_WHITELIST settings ->
      (encodable attachment_name attachment_content = true ->
       exists c m rest,
         effects run t = SendGridSend c m :: rest
         /\ (rest = [] \/ exists msg, rest = [SentryMessage msg])
         /\ sent_mails (effects run t) = [m]
         /\ exists p, personalizations m = [p] /\ tos p = [to_addr])
      /\ (encodable attachment_name attachment_content = false ->
          run t = (Raised TypeError, t))).
Proof.
  intros run. split.
  - intros Hmode Hout.
    assert (Hgate : gate_closed settings to_addr = true)
      by (apply gate_closed_true; auto).
    unfold gate_closed in Hgate.
    assert (Hrun : exists msg,
      run t = (Returned (VBool false), t ++ [SentryMessage msg])
      /\ FStr to_addr ∈ msg).
    { subst run. unfold _send_with_sendgrid. cbv zeta. rewrite Hgate.
      eexists. split; [reflexivity |].
      apply list_elem_of_further, list_elem_of_here. }
    split; [exact Hrun |]. destruct Hrun as (msg & Hrun & _).
    rewrite (effects_app run t _ (f_equal snd Hrun)). reflexivity.
  - intros Hopen. apply gate_closed_false in Hopen.
    destruct (sendgrid_open_run from_addr to_addr subject message categories
                cc_addr bcc_addr reply_to)
      as (m0 & Hrun & _ & _ & _ & _ & p & Hp & Htos).
    destruct (Hrun settings sendgrid_reply attachment_name
                attachment_content client t Hopen) as (Hno & Hyes & Hraise).
    fold run in Hno, Hyes, Hraise. split.
    + intros Henc.
      destruct (encodable_cases _ _ Henc) as [Hw | (name & b & Hw & Hn & Hc)].
      * apply Hno, sends_and_reports_trace in Hw
          as (rest & Hsnd & Hrest & Hsent).
        eexists _, m0, rest. rewrite (effects_app run t _ Hsnd).
        split; [reflexivity |]. split; [exact Hrest |].
        split; [rewrite <- (effects_app run t _ Hsnd); exact Hsent |].
        exists p. auto.
      * specialize (Hyes name b Hw Hn Hc).
        apply sends_and_reports_trace in Hyes
          as (rest & Hsnd & Hrest & Hsent).
        eexists _, _, rest. rewrite (effects_app run t _ Hsnd).
        split; [reflexivity |]. split; [exact Hrest |].
        split; [rewrite <- (effects_app run t _ Hsnd); exact Hsent |].
        exists p. auto.
    + intros Henc. unfold encodable in Henc.
      destruct (wants_attachment attachment_name attachment_content) eqn:Hw;
        [| discriminate Henc].
      apply Hraise; [reflexivity | exact Henc].
Qed.

(** C4, as the code has it. On the SendGrid path, once the client has
    answered: for every response whose status code is not 200, 201 or 202
    -- in particular for every status outside 2xx -- one sentry message
    carrying the status is recorded after the send and the call returns
    [None], a falsy result, without raising; for status 200, 201 or 202
    the call returns [True] and nothing is reported. *)
Theorem sendgrid_status_handling
    from_addr to_addr subject message categories attachment_name
    attachment_content cc_addr bcc_addr reply_to client (t : trace)
    (resp : Response) :
  gate_closed settings to_addr = false ->
  encodable attachment_name attachment_content = true ->
  (forall c m, sendgrid_reply t c m = Returned resp) ->
  let run :=
    _send_with_sendgrid settings sendgrid_reply from_addr to_addr subject
      message categories attachment_name attachment_content cc_addr
      bcc_addr reply_to client in
  (status_code resp ∉ [200; 201; 202]%Z ->
   fst (run t) = Returned VNone
   /\ truthy VNone = false
   /\ exists c m msg,
        snd (run t) = t ++ [SendGridSend c m; SentryMessage msg]
        /\ FInt (status_code resp) ∈ msg)
  /\ (~ (200 <= status_code resp < 300)%Z ->
      status_code resp ∉ [200; 201; 202]%Z)
  /\ (status_code resp ∈ [200; 201; 202]%Z ->
      fst (run t) = Returned (VBool true)
      /\ exists c m, snd (run t) = t ++ [SendGridSend c m]).
Proof.
  intros Hgate Henc Hreply run.
  destruct (sendgrid_open_run from_addr to_addr subject message categories
              cc_addr bcc_addr reply_to) as (m0 & Hrun & _).
  destruct (Hrun settings sendgrid_reply attachment_name
              attachment_content client t Hgate) as (Hno & Hyes & _).
  fold run in Hno, Hyes.
  assert (Hsent : exists c m, sends_and_reports sendgrid_reply c m t (run t)).
  { destruct (encodable_cases _ _ Henc) as [Hw | (name & b & Hw & Hn & Hc)].
    - eexists _, _. exact (Hno Hw).
    - eexists _, _. exact (Hyes name b Hw Hn Hc). }
  destruct Hsent as (c & m & Hsent).
  unfold sends_and_reports in Hsent. rewrite Hreply in Hsent.
  split; [| split].
  - intros Hstatus.
    rewrite bool_decide_eq_false_2 in Hsent by exact Hstatus.
    destruct Hsent as (msg & -> & Hin & _).
    split; [reflexivity |]. split; [reflexivity |]. eauto.
  - intros Hrange Hin.
    apply Hrange. set_unfold. lia.
  - intros Hstatus.
    rewrite bool_decide_eq_true_2 in Hsent by exact Hstatus.
    rewrite Hsent. eauto.
Qed.

(** C10 on the code: when both [attachment_name] and [attachment_content]
    are truthy but the content is a [str] or a [BytesIO] -- both allowed
    by the annotation of [send_email] -- [b64encode] raises [TypeError]:
    no attachment is added and no mail is sent at all, although
    [_content_to_bytes] would have turned the content into [bytes]
    that [b64encode] accepts. *)
Theorem sendgrid_attachment_not_bytes_raises
    from_addr to_addr subject message categories
    (name : string) (content : content)
    cc_addr bcc_addr reply_to client (t : trace) :
  gate_closed settings to_addr = false ->
  truthy name = true ->
  truthy content = true ->
  is_bytes (Some content) = false ->
  let run :=
    _send_with_sendgrid settings sendgrid_reply from_addr to_addr subject
      message categories (Some name) (Some content) cc_addr bcc_addr
      reply_to client in
  run t = (Raised TypeError, t)
  /\ sent_mails (effects run t) = []
  /\ Base64.b64encode (CBytes (Base64._content_to_bytes content))
     = Returned (Base64.encode (Base64._content_to_bytes content)).
Proof.
  intros Hgate Hname Hcontent Hbytes run.
  destruct (sendgrid_open_run from_addr to_addr subject message categories
              cc_addr bcc_addr reply_to) as (m0 & Hrun & _).
  destruct (Hrun settings sendgrid_reply (Some name) (Some content) client
              t Hgate) as (_ & _ & Hraise).
  fold run in Hraise.
  assert (Hr : run t = (Raised TypeError, t)).
  { apply Hraise; [| exact Hbytes].
    unfold wants_attachment.
    change (truthy name && truthy content = true).
    rewrite Hname, Hcontent. reflexivity. }
  split; [exact Hr |]. split; [| reflexivity].
  rewrite (effects_app run t [] (eq_trans (f_equal snd Hr)
                                   (eq_sym (app_nil_r t)))).
  reflexivity.
Qed.

End SendGridClaims.

(** ** [send_email] *)

Section SendEmailClaims.

Import Email EmailSpec.

Variable settings : Settings.
Variable smtp_reply : trace -> smtp_op -> option exn.
Variable sendgrid_reply : trace -> sg_client -> Mail -> outcome Response.

(** C2. With outbound email enabled, [send_email] is routed by
    [settings.SENDGRID_API_KEY]: when the key is set (truthy) the call is
    the call of [_send_with_sendgrid] on the same message, with no [cc]
    and the default client, and it performs no SMTP operation; otherwise
    it is the call of [_send_with_smtp], and nothing is handed to the
    SendGrid client. Either way the outcome and the effects of
    [send_email] are those of the chosen path. *)
Theorem send_email_routed_by_api_key
    from_addr to_addr subject message reply_to ttls login bcc_addr
    username password categories attachment_name attachment_content
    (t : trace) :
  USE_EMAIL settings = true ->
  let run :=
    send_email settings smtp_reply sendgrid_reply from_addr to_addr subject
      message reply_to ttls login bcc_addr username password categories
      attachment_name attachment_content in
  (truthy (SENDGRID_API_KEY settings) = true ->
   run t =
     _send_with_sendgrid settings sendgrid_reply from_addr to_addr subject
       message categories attachment_name attachment_content None bcc_addr
       reply_to None t
   /\ Forall (fun e => is_smtp e = false) (effects run t))
  /\ (truthy (SENDGRID_API_KEY settings) = false ->
      run t =
        _send_with_smtp settings smtp_reply from_addr to_addr subject
          message ttls login username password bcc_addr reply_to t
      /\ Forall (fun e => is_sendgrid_send e = false) (effects run t)).
Proof.
  intros Huse run. subst run. unfold send_email. rewrite Huse. cbn [negb].
  split; intros Hkey; rewrite Hkey; (split; [reflexivity |]).
  - apply (emits_only_effects _ _ t), _send_with_sendgrid_no_smtp.
  - apply (emits_only_effects _ _ t), _send_with_smtp_no_sendgrid.
Qed.

(** C3. With [settings.USE_EMAIL] false, [send_email] returns [None]
    whatever its arguments, and has no effect: nothing is logged and
    nothing reaches the SMTP server or the SendGrid client. *)
Theorem send_email_disabled_is_noop
    from_addr to_addr subject message reply_to ttls login bcc_addr
    username password categories attachment_name attachment_content
    (t : trace) :
  USE_EMAIL settings = false ->
  let run :=
    send_email settings smtp_reply sendgrid_reply from_addr to_addr subject
      message reply_to ttls login bcc_addr username password categories
      attachment_name attachment_content in
  run t = (Returned VNone, t) /\ effects run t = [].
Proof.
  intros Huse run.
  assert (Hrun : run t = (Returned VNone, t)).
  { subst run. unfold send_email. rewrite Huse. reflexivity. }
  split; [exact Hrun |].
  apply effects_app. rewrite Hrun. cbn. now rewrite app_nil_r.
Qed.

End SendEmailClaims.

(** ** The claims at sample inputs *)

Section SampleRuns.

Import Email EmailSpec.

Lemma send_email_routed_by_api_key_witness :
  send_email sendgrid_settings smtp_accepts (sendgrid_answers 202)
    "noreply@osf.io" "ok@osf.io" "Hi" "<p>Hi</p>" None true true None None
    None None None None []
  = _send_with_sendgrid sendgrid_settings (sendgrid_answers 202)
      "noreply@osf.io" "ok@osf.io" "Hi" "<p>Hi</p>" None None None None
      None None None []
  /\ send_email smtp_settings smtp_accepts (sendgrid_answers 202)
       "noreply@osf.io" "ok@osf.io" "Hi" "<p>Hi</p>" None true true None
       None None None None None []
     = _send_with_smtp smtp_settings smtp_accepts
         "noreply@osf.io" "ok@osf.io" "Hi" "<p>Hi</p>" true true None None
         None None [].
Proof.
  split.
  - exact (proj1 (proj1 (send_email_routed_by_api_key sendgrid_settings
                           smtp_accepts (sendgrid_answers 202)
                           "noreply@osf.io" "ok@osf.io" "Hi" "<p>Hi</p>"
                           None true true None None None None None None []
                           eq_refl) eq_refl)).
  - exact (proj1 (proj2 (send_email_routed_by_api_key smtp_settings
                           smtp_accepts (sendgrid_answers 202)
                           "noreply@osf.io" "ok@osf.io" "Hi" "<p>Hi</p>"
                           None true true None None None None None None []
                           eq_refl) eq_refl)).
Defined.

Lemma send_email_disabled_is_noop_witness :
  send_email disabled_settings smtp_accepts (sendgrid_answers 202)
    "noreply@osf.io" "ok@osf.io" "Hi" "<p>Hi</p>" None true true None None
    None None None None []
  = (Returned VNone, []).
Proof.
  exact (proj1 (send_email_disabled_is_noop disabled_settings smtp_accepts
                  (sendgrid_answers 202)
                  "noreply@osf.io" "ok@osf.io" "Hi" "<p>Hi</p>"
                  None true true None None None None None None []
                  eq_refl)).
Defined.

Lemma smtp_missing_credentials_abort_witness :
  _send_with_smtp smtp_settings_no_password smtp_accepts
    "noreply@osf.io" "ok@osf.io" "Hi" "<p>Hi</p>" true true None None
    None None []
  = (Returned (VBool false),
     [LoggerError "Mail username and password not set; skipping send."]).
Proof.
  exact (proj1 (smtp_missing_credentials_abort smtp_settings_no_password
                  smtp_accepts
                  "noreply@osf.io" "ok@osf.io" "Hi" "<p>Hi</p>" true true
                  None None None None [] eq_refl (or_intror eq_refl))).
Defined.

Lemma smtp_envelope_is_to_then_bcc_witness :
  let run :=
    _send_with_smtp smtp_settings smtp_accepts
      "noreply@osf.io" "ok@osf.io" "Hi" "<p>Hi</p>" true true None None
      (Some (AddrList ["b1@osf.io"; "b2@osf.io"])) None in
  fst (run []) = Returned (VBool true)
  /\ exists m,
       effects run [] =
         [Smtp (SmtpConnect "smtp.sendgrid.net"); Smtp SmtpEhlo;
          Smtp SmtpStarttls; Smtp SmtpEhlo;
          Smtp (SmtpLogin (Some "osf-smtp") (Some "secret"));
          Smtp (SmtpSendmail "noreply@osf.io"
                  ["ok@osf.io"; "b1@osf.io"; "b2@osf.io"] m);
          Smtp SmtpQuit].
Proof.
  exact (proj2 (smtp_envelope_is_to_then_bcc smtp_settings smtp_accepts
                  "noreply@osf.io" "ok@osf.io" "Hi" "<p>Hi</p>" true true
                  None None (Some ["b1@osf.io"; "b2@osf.io"]) None [])
           eq_refl (fun _ _ => eq_refl)).
Defined.

Lemma sendgrid_whitelist_gate_witness :
  (exists msg,
      _send_with_sendgrid sendgrid_settings (sendgrid_answers 202)
        "noreply@osf.io" "stranger@example.org" "Hi" "<p>Hi</p>" None None
        None None None None None []
      = (Returned (VBool false), [SentryMessage msg])
      /\ FStr "stranger@example.org" ∈ msg)
  /\ exists c m rest,
       effects
         (_send_with_sendgrid sendgrid_settings (sendgrid_answers 202)
            "noreply@osf.io" "ok@osf.io" "Hi" "<p>Hi</p>" None None
            None None None None None) []
       = SendGridSend c m :: rest.
Proof.
  split.
  - refine (proj1 (proj1 (sendgrid_whitelist_gate sendgrid_settings
                            (sendgrid_answers 202)
                            "noreply@osf.io" "stranger@example.org" "Hi"
                            "<p>Hi</p>" None None None None None None None [])
                     eq_refl _)).
    vm_compute. intros H. inversion H as [| ? ? ? H']. inversion H'.
  - destruct (proj1 (proj2 (sendgrid_whitelist_gate sendgrid_settings
                              (sendgrid_answers 202)
                              "noreply@osf.io" "ok@osf.io" "Hi" "<p>Hi</p>"
                              None None None None None None None [])
                       (or_intror (list_elem_of_here _ _))) eq_refl)
      as (c & m & rest & H & _).
    exists c, m, rest. exact H.
Defined.

Lemma sendgrid_status_handling_witness :
  fst (_send_with_sendgrid sendgrid_settings (sendgrid_answers 500)
         "noreply@osf.io" "ok@osf.io" "Hi" "<p>Hi</p>" None None
         None None None None None [])
  = Returned VNone
  /\ fst (_send_with_sendgrid sendgrid_settings (sendgrid_answers 202)
            "noreply@osf.io" "ok@osf.io" "Hi" "<p>Hi</p>" None None
            None None None None None [])
     = Returned (VBool true).
Proof.
  split.
  - refine (proj1 (proj1 (sendgrid_status_handling sendgrid_settings
                            (sendgrid_answers 500)
                            "noreply@osf.io" "ok@osf.io" "Hi" "<p>Hi</p>"
                            None None None None None None None []
                            {| status_code := 500; body := "" |}
                            eq_refl eq_refl (fun _ _ => eq_refl)) _)).
    set_unfold. lia.
  - refine (proj1 (proj2 (proj2 (sendgrid_status_handling sendgrid_settings
                            (sendgrid_answers 202)
                            "noreply@osf.io" "ok@osf.io" "Hi" "<p>Hi</p>"
                            None None None None None None None []
                            {| status_code := 202; body := "" |}
                            eq_refl eq_refl (fun _ _ => eq_refl))) _)).
    set_unfold. lia.
Defined.

(** C4 as first stated fails at status 204: a 2xx success for which the
    call records a sentry message and returns [None], not [True]. *)
Lemma sendgrid_204_is_reported_not_True :
  let run :=
    _send_with_sendgrid sendgrid_settings (sendgrid_answers 204)
      "noreply@osf.io" "ok@osf.io" "Hi" "<p>Hi</p>" None None
      None None None None None in
  (200 <= 204 < 300)%Z
  /\ fst (run []) = Returned VNone
  /\ fst (run []) <> Returned (VBool true)
  /\ exists c m msg, snd (run []) = [SendGridSend c m; SentryMessage msg].
Proof.
  cbv zeta. split; [lia |]. split; [vm_compute; reflexivity |].
  split; [vm_compute; discriminate |].
  eexists _, _, _. vm_compute. reflexivity.
Qed.

Lemma sendgrid_attachment_not_bytes_raises_witness :
  _send_with_sendgrid sendgrid_settings (sendgrid_answers 202)
    "noreply@osf.io" "ok@osf.io" "Report" "<p>See attachment</p>" None
    (Some "report.csv") (Some (CStr "a,b")) None None None None []
  = (Raised TypeError, []).
Proof.
  exact (proj1 (sendgrid_attachment_not_bytes_raises sendgrid_settings
                  (sendgrid_answers 202)
                  "noreply@osf.io" "ok@osf.io" "Report"
                  "<p>See attachment</p>" None "report.csv" (CStr "a,b")
                  None None None None [] eq_refl eq_refl eq_refl eq_refl)).
Defined.

(** The same call with the content as [bytes] sends the mail with the
    attachment [YSxi], the base64 text of [a,b]. *)
Example sendgrid_attachment_bytes_sent :
  (fun m => file_content <$> attachments m)
    <$> sent_mails
          (snd (_send_with_sendgrid sendgrid_settings (sendgrid_answers 202)
                  "noreply@osf.io" "ok@osf.io" "Report"
                  "<p>See attachment</p>" None (Some "report.csv")
                  (Some (CBytes (list_byte_of_string "a,b")))
                  None None None None []))
  = [["YSxi"]].
Proof. vm_compute. reflexivity. Qed.

End SampleRuns.

(** ** The SMTP dialogue *)

Section SmtpDialogue.

Import Email EmailSpec SmtpSpec.

Lemma plays_ret {A} (a : A) : plays [] (ret a).
Proof.
  intros t. exists 0. cbn. rewrite app_nil_r. auto.
Qed.

Lemma plays_smtp reply (op : smtp_op) : plays [op] (smtp reply op).
Proof.
  intros t. exists 1. unfold smtp.
  destruct (reply t op); cbn; auto.
Qed.

Lemma plays_bind {A B} (ops1 ops2 : list smtp_op) (m : M A) (f : A -> M B) :
  plays ops1 m -> (forall a, plays ops2 (f a)) ->
  plays (ops1 ++ ops2) (bind m f).
Proof.
  intros Hm Hf t. unfold bind.
  destruct (Hm t) as (k1 & Hk1 & Hs1 & Hr1).
  destruct (m t) as [[a | e] t1]; cbn in Hs1, Hr1; subst t1.
  - specialize (Hr1 a eq_refl). subst k1.
    rewrite firstn_all.
    destruct (Hf a (t ++ (Smtp <$> ops1))) as (k2 & Hk2 & Hs2 & Hr2).
    exists (length ops1 + k2). rewrite length_app. split; [lia |]. split.
    + rewrite Hs2, take_app_add, fmap_app, app_assoc. reflexivity.
    + intros b Hb. rewrite (Hr2 b Hb). reflexivity.
  - exists k1. rewrite length_app. split; [lia |]. split.
    + cbn. rewrite take_app_le by exact Hk1. reflexivity.
    + intros b [=].
  Qed.

(** The body of the [with] block of [_send_with_smtp] plays the handshake
    and then the [sendmail]. *)
Lemma smtp_body_plays reply ttls login username password from_addr rcpts msg :
  plays (handshake ttls login username password
         ++ [SmtpSendmail from_addr rcpts msg])
    (smtp reply SmtpEhlo >>
     (if ttls then smtp reply SmtpStarttls >> smtp reply SmtpEhlo
      else ret tt) >>
     (if login then smtp reply (SmtpLogin username password) else ret tt) >>
     smtp reply (SmtpSendmail from_addr rcpts msg)).
Proof.
  unfold handshake. rewrite <- !app_assoc.
  apply plays_bind; [apply plays_smtp | intros _].
  apply plays_bind; [| intros _].
  { destruct ttls; [| apply plays_ret].
    apply (plays_bind [SmtpStarttls] [SmtpEhlo]); [apply plays_smtp |].
    intros _. apply plays_smtp. }
  apply plays_bind; [| intros _; apply plays_smtp].
  destruct login; [apply plays_smtp | apply plays_ret].
Qed.

(** [with smtplib.SMTP(server) as server: body]: a refused connection
    raises with nothing else done; an accepted one is followed by what
    [body] plays and then, always, by QUIT. *)
Lemma with_smtp_plays {A} reply (server : string) (ops : list smtp_op)
    (body : M A) (t : trace) :
  plays ops body ->
  let run :=
    with_ (smtp reply (SmtpConnect server)) (smtp reply SmtpQuit) body in
  match reply t (SmtpConnect server) with
  | Some e => run t = (Raised e, t ++ [Smtp (SmtpConnect server)])
  | None =>
      exists k,
        k <= length ops
        /\ snd (run t) =
             t ++ (Smtp <$> SmtpConnect server :: take k ops)
               ++ [Smtp SmtpQuit]
        /\ (forall a, fst (run t) = Returned a -> k = length ops)
  end.
Proof.
  intros Hbody run. subst run. unfold with_, bind, smtp.
  destruct (reply t (SmtpConnect server)) as [e |]; [reflexivity |].
  destruct (Hbody (t ++ [Smtp (SmtpConnect server)])) as (k & Hk & Hs & Hr).
  exists k. split; [exact Hk |].
  destruct (body (t ++ [Smtp (SmtpConnect server)])) as [r t1].
  cbn in Hs, Hr. subst t1.
  match goal with
  | |- context [reply ?x SmtpQuit] => destruct (reply x SmtpQuit) as [e |]
  end; cbn.
  - split; [| intros a [=]].
    rewrite <- !app_assoc. reflexivity.
  - split; [rewrite <- !app_assoc; reflexivity |].
    intros a ->. exact (Hr a eq_refl).
Qed.

Lemma smtp_message_built (from_addr to_addr subject message : string)
    (reply_to : option string) :
  match reply_to with
  | Some r =>
      if truthy r
      then set_header
             (set_header
                (set_header
                   (set_header (MIMEText_new message "html" "utf-8")
                      "Subject" subject) "From" from_addr) "To" to_addr)
             "Reply-To" r
      else set_header
             (set_header
                (set_header (MIMEText_new message "html" "utf-8")
                   "Subject" subject) "From" from_addr) "To" to_addr
  | None =>
      set_header
        (set_header
           (set_header (MIMEText_new message "html" "utf-8")
              "Subject" subject) "From" from_addr) "To" to_addr
  end
  = smtp_message from_addr to_addr subject message reply_to.
Proof. destruct reply_to as [[| c r] |]; reflexivity. Qed.

Lemma bind_ret_run {A B} (m : M A) (b : B) (t : trace) :
  snd (bind m (fun _ => ret b) t) = snd (m t)
  /\ forall v, fst (bind m (fun _ => ret b) t) = Returned v ->
               v = b /\ exists a, fst (m t) = Returned a.
Proof.
  unfold bind, ret. destruct (m t) as [[a | e] t1]; cbn.
  - split; [reflexivity |]. intros v [= <-]. eauto.
  - split; [reflexivity |]. intros v [=].
Qed.

(** The run of [_send_with_smtp] once the credentials are there and the
    recipients are a list: a refused connection raises; otherwise a prefix
    of the session is played, QUIT follows, and the call returns only
    after the whole session, with [True]. *)
Lemma smtp_run_shape settings reply
    from_addr to_addr subject message ttls login username password
    bcc_addr reply_to (rcpts : list string) (t : trace) :
  credentials_missing settings login username password = false ->
  list_add [to_addr] (or_ bcc_addr (Some (AddrList []))) = Returned rcpts ->
  let script :=
    session settings ttls login
      (or_ username (MAIL_USERNAME settings))
      (or_ password (MAIL_PASSWORD settings))
      from_addr rcpts
      (smtp_message from_addr to_addr subject message reply_to) in
  let run :=
    _send_with_smtp settings reply from_addr to_addr subject message
      ttls login username password bcc_addr reply_to in
  match reply t (SmtpConnect (MAIL_SERVER settings)) with
  | Some e =>
      run t = (Raised e, t ++ [Smtp (SmtpConnect (MAIL_SERVER settings))])
  | None =>
      exists k,
        1 <= k <= length script
        /\ snd (run t) = t ++ (Smtp <$> take k script) ++ [Smtp SmtpQuit]
        /\ (forall v, fst (run t) = Returned v ->
                      v = VBool true /\ k = length script)
  end.
Proof.
  intros Hcred Hrcpts script run.
  unfold credentials_missing in Hcred.
  assert (Hrun : run t =
    bind
      (with_ (smtp reply (SmtpConnect (MAIL_SERVER settings)))
         (smtp reply SmtpQuit)
         (smtp reply SmtpEhlo >>
          (if ttls then smtp reply SmtpStarttls >> smtp reply SmtpEhlo
           else ret tt) >>
          (if login
           then smtp reply
                  (SmtpLogin (or_ username (MAIL_USERNAME settings))
                     (or_ password (MAIL_PASSWORD settings)))
           else ret tt) >>
          smtp reply
            (SmtpSendmail from_addr rcpts
               (smtp_message from_addr to_addr subject message reply_to))))
      (fun _ => ret (VBool true)) t).
  { subst run. unfold _send_with_smtp. cbv zeta.
    rewrite Hcred, Hrcpts, smtp_message_built. reflexivity. }
  rewrite Hrun.
  pose proof (with_smtp_plays reply (MAIL_SERVER settings) _ _ t
                (smtp_body_plays reply ttls login
                   (or_ username (MAIL_USERNAME settings))
                   (or_ password (MAIL_PASSWORD settings))
                   from_addr rcpts
                   (smtp_message from_addr to_addr subject message reply_to)))
    as Hwith.
  cbv zeta in Hwith.
  destruct (reply t (SmtpConnect (MAIL_SERVER settings))) as [e |].
  - unfold bind at 1. rewrite Hwith. reflexivity.
  - destruct Hwith as (k & Hk & Hs & Hr).
    match goal with
    | |- context [bind ?m _ t] =>
        destruct (bind_ret_run m (VBool true) t) as [Hsnd Hfst]
    end.
    exists (S k). subst script. unfold session. cbn [length take].
    split; [lia |]. split.
    + rewrite Hsnd, Hs. reflexivity.
    + intros v Hv. destruct (Hfst v Hv) as [-> [a Ha]].
      split; [reflexivity |]. f_equal. exact (Hr a Ha).
Qed.

Lemma sendmail_in_session_prefix settings ttls login u p from_addr rcpts msg
    (k : nat) f r m :
  SmtpSendmail f r m
    ∈ take k (session settings ttls login u p from_addr rcpts msg) ->
  take k (session settings ttls login u p from_addr rcpts msg)
    = session settings ttls login u p from_addr rcpts msg
  /\ f = from_addr /\ r = rcpts /\ m = msg.
Proof.
  unfold session, handshake.
  destruct ttls, login; cbn;
    do 7 (try (destruct k as [| k]; cbn));
    rewrite ?take_nil; set_unfold; intros H;
    repeat (destruct H as [H | H]; [try discriminate H | ]);
    try (injection H as -> -> ->; auto);
    try contradiction.
Qed.

End SmtpDialogue.

Section SmtpSessionProperties.

Import Email EmailSpec SmtpSpec.

Variable settings : Settings.
Variable smtp_reply : trace -> smtp_op -> option exn.


(** X2. A [sendmail] is never issued out of order: whenever one appears
    among the effects of an SMTP send, the effects are the whole dialogue
    in order -- connect, EHLO, STARTTLS and EHLO when [ttls], LOGIN with
    the effective credentials when [login], that [sendmail], QUIT -- and
    the message sent is the html body in utf-8 with the [Subject], [From]
    and [To] headers, and a [Reply-To] header exactly when [reply_to] is
    truthy. *)
Theorem smtp_sendmail_only_after_handshake
    from_addr to_addr subject message ttls login username password
    bcc_addr reply_to (rcpts : list string) (t : trace) f r m :
  credentials_missing settings login username password = false ->
  list_add [to_addr] (or_ bcc_addr (Some (AddrList []))) = Returned rcpts ->
  let run :=
    _send_with_smtp settings smtp_reply from_addr to_addr subject message
      ttls login username password bcc_addr reply_to in
  Smtp (SmtpSendmail f r m) ∈ effects run t ->
  effects run t =
    (Smtp <$> session settings ttls login
                (or_ username (MAIL_USERNAME settings))
                (or_ password (MAIL_PASSWORD settings))
                from_addr rcpts
                (smtp_message from_addr to_addr subject message reply_to))
    ++ [Smtp SmtpQuit]
  /\ f = from_addr
  /\ r = rcpts
  /\ m = smtp_message from_addr to_addr subject message reply_to.
Proof.
  intros Hcred Hrcpts run Hin.
  pose proof (smtp_run_shape settings smtp_reply from_addr to_addr subject
                message ttls login username password bcc_addr reply_to
                rcpts t Hcred Hrcpts) as Hshape.
  cbv zeta in Hshape. fold run in Hshape.
  destruct (smtp_reply t (SmtpConnect (MAIL_SERVER settings))) as [e |].
  - rewrite (effects_app run t [Smtp (SmtpConnect (MAIL_SERVER settings))])
      in Hin by (rewrite Hshape; reflexivity).
    apply list_elem_of_singleton in Hin. discriminate Hin.
  - destruct Hshape as (k & Hk & Hs & _).
    rewrite (effects_app run t _ Hs) in Hin |- *.
    apply elem_of_app in Hin as [Hin | Hin].
    + apply list_elem_of_fmap in Hin as (op & Hop & Hin).
      injection Hop as <-.
      apply sendmail_in_session_prefix in Hin as (-> & -> & -> & ->). auto.
    + apply list_elem_of_singleton in Hin. discriminate Hin.
Qed.

Lemma smtp_run_missing
    from_addr to_addr subject message ttls login username password
    bcc_addr reply_to (t : trace) :
  credentials_missing settings login username password = true ->
  _send_with_smtp settings smtp_reply from_addr to_addr subject message
    ttls login username password bcc_addr reply_to t
  = (Returned (VBool false),
     t ++ [LoggerError "Mail username and password not set; skipping send."]).
Proof.
  intros Hcred. unfold credentials_missing in Hcred.
  unfold _send_with_smtp. cbv zeta. rewrite Hcred. reflexivity.
Qed.

Lemma smtp_run_bad_recipients
    from_addr to_addr subject message ttls login username password
    bcc_addr reply_to (e : exn) (t : trace) :
  credentials_missing settings login username password = false ->
  list_add [to_addr] (or_ bcc_addr (Some (AddrList []))) = Raised e ->
  _send_with_smtp settings smtp_reply from_addr to_addr subject message
    ttls login username password bcc_addr reply_to t
  = (Raised e, t).
Proof.
  intros Hcred Hrcpts. unfold credentials_missing in Hcred.
  unfold _send_with_smtp. cbv zeta. rewrite Hcred, Hrcpts. reflexivity.
Qed.

(** X3. An SMTP send is never retried within the call: whatever the
    arguments and whatever the server answers, [_send_with_smtp] opens at
    most one connection and issues at most one [sendmail]. *)
Theorem smtp_at_most_one_connection_and_sendmail
    from_addr to_addr subject message ttls login username password
    bcc_addr reply_to (t : trace) :
  let run :=
    _send_with_smtp settings smtp_reply from_addr to_addr subject message
      ttls login username password bcc_addr reply_to in
  length (List.filter is_connect (effects run t)) <= 1
  /\ length (List.filter is_sendmail (effects run t)) <= 1.
Proof.
  intros run.
  destruct (credentials_missing settings login username password) eqn:Hcred.
  { rewrite (effects_app run t _
               (f_equal snd (smtp_run_missing from_addr to_addr subject
                               message ttls login username password bcc_addr
                               reply_to t Hcred))).
    cbn. lia. }
  destruct (list_add [to_addr] (or_ bcc_addr (Some (AddrList []))))
    as [rcpts | e] eqn:Hrcpts.
  2: { pose proof (smtp_run_bad_recipients from_addr to_addr subject message
                     ttls login username password bcc_addr reply_to e t
                     Hcred Hrcpts) as Hrun.
       fold run in Hrun.
       rewrite (effects_app run t []) by (rewrite Hrun; cbn; now rewrite app_nil_r).
       cbn. lia. }
  pose proof (smtp_run_shape settings smtp_reply from_addr to_addr subject
                message ttls login username password bcc_addr reply_to
                rcpts t Hcred Hrcpts) as Hshape.
  cbv zeta in Hshape. fold run in Hshape.
  destruct (smtp_reply t (SmtpConnect (MAIL_SERVER settings))) as [e |].
  - rewrite (effects_app run t [Smtp (SmtpConnect (MAIL_SERVER settings))])
      by (rewrite Hshape; reflexivity).
    cbn. lia.
  - destruct Hshape as (k & _ & Hs & _).
    rewrite (effects_app run t _ Hs).
    unfold session, handshake.
    destruct ttls, login; cbn;
      do 7 (try (destruct k as [| k]; cbn)); rewrite ?take_nil; cbn; lia.
Qed.

(** X4. On the SMTP path a [bcc_addr] given as a non-empty [str] is not
    accepted: [[to_addr] + bcc_addr] raises [TypeError] before any
    connection is opened. A falsy [bcc_addr] (an empty string or an empty
    list) is the same as no [bcc_addr] at all. *)
Theorem smtp_bcc_must_be_a_list
    from_addr to_addr subject message ttls login username password
    (bcc_addr : option addrs) reply_to (t : trace) :
  let run bcc :=
    _send_with_smtp settings smtp_reply from_addr to_addr subject message
      ttls login username password bcc reply_to in
  (forall s, bcc_addr = Some (AddrStr s) -> truthy s = true ->
             credentials_missing settings login username password = false ->
             run bcc_addr t = (Raised TypeError, t))
  /\ (truthy bcc_addr = false -> run bcc_addr t = run None t).
Proof.
  intros run. split.
  - intros s -> Hs Hcred. subst run.
    apply smtp_run_bad_recipients; [exact Hcred |].
    unfold or_. change (truthy (Some (AddrStr s))) with (truthy s).
    rewrite Hs. reflexivity.
  - intros Hfalsy. subst run. unfold _send_with_smtp, or_.
    rewrite Hfalsy. reflexivity.
Qed.

(** X5. The optional steps follow their flags: STARTTLS is issued only
    when [ttls] is set and LOGIN only when [login] is set. A LOGIN carries
    the explicit [username] and [password] where they are truthy and the
    values of [settings] otherwise, and never a [None] credential. *)
Theorem smtp_optional_steps_follow_flags
    from_addr to_addr subject message ttls login username password
    bcc_addr reply_to (t : trace) :
  let run :=
    _send_with_smtp settings smtp_reply from_addr to_addr subject message
      ttls login username password bcc_addr reply_to in
  (Smtp SmtpStarttls ∈ effects run t -> ttls = true)
  /\ forall u p,
       Smtp (SmtpLogin u p) ∈ effects run t ->
       login = true
       /\ u = (if truthy username then username else MAIL_USERNAME settings)
       /\ p = (if truthy password then password else MAIL_PASSWORD settings)
       /\ u <> None /\ p <> None.
Proof.
  intros run.
  set (P := fun e : event =>
    (e = Smtp SmtpStarttls -> ttls = true)
    /\ forall u p,
         e = Smtp (SmtpLogin u p) ->
         login = true
         /\ u = (if truthy username then username else MAIL_USERNAME settings)
         /\ p = (if truthy password then password else MAIL_PASSWORD settings)
         /\ u <> None /\ p <> None).
  assert (Hrun : emits_only P run).
  { subst run. unfold _send_with_smtp, logger_error. cbv zeta.
    destruct (login && (is_None (or_ username (MAIL_USERNAME settings))
                        || is_None (or_ password (MAIL_PASSWORD settings))))
      eqn:Hcred.
    - repeat emits_step. split; [intros [=] | intros u p [=]].
    - destruct ttls, login; repeat emits_step;
        (split; [intros [=]; reflexivity || idtac | intros u p [=]; subst]);
        try reflexivity.
      all: cbn in Hcred; apply orb_false_elim in Hcred as [Hu Hp];
        unfold or_ in *; repeat split; try reflexivity;
        intros Hn; rewrite Hn in *; discriminate. }
  destruct (emits_only_effects P run t Hrun) as [_ Hall].
  rewrite List.Forall_forall in Hall.
  split.
  - intros Hin. apply list_elem_of_In, Hall in Hin. now apply Hin.
  - intros u p Hin. apply list_elem_of_In, Hall in Hin. now apply Hin.
Qed.

End SmtpSessionProperties.

(** ** The mail handed to SendGrid *)

Section SendGridMail.

Import Email EmailSpec SendGridSpec.

Lemma fold_add_cc (l : list string) :
  forall p, fold_left add_cc l p
            = {| tos := tos p; ccs := ccs p ++ l; bccs := bccs p |}.
Proof.
  induction l as [| a l IH]; intros [ts cs bs]; cbn.
  - now rewrite app_nil_r.
  - rewrite IH. cbn. now rewrite <- app_assoc.
Qed.

Lemma fold_add_bcc (l : list string) :
  forall p, fold_left add_bcc l p
            = {| tos := tos p; ccs := ccs p; bccs := bccs p ++ l |}.
Proof.
  induction l as [| a l IH]; intros [ts cs bs]; cbn.
  - now rewrite app_nil_r.
  - rewrite IH. cbn. now rewrite <- app_assoc.
Qed.

Lemma personalization_built (to_addr : string) (cc_addr bcc_addr : option addrs) :
  (if truthy bcc_addr
   then fold_left add_bcc (addr_list bcc_addr)
          (if truthy cc_addr
           then fold_left add_cc (addr_list cc_addr)
                  (add_to Personalization_new to_addr)
           else add_to Personalization_new to_addr)
   else (if truthy cc_addr
         then fold_left add_cc (addr_list cc_addr)
                (add_to Personalization_new to_addr)
         else add_to Personalization_new to_addr))
  = expected_personalization to_addr cc_addr bcc_addr.
Proof.
  unfold expected_personalization.
  destruct (truthy cc_addr), (truthy bcc_addr);
    rewrite ?fold_add_bcc, ?fold_add_cc; reflexivity.
Qed.

Lemma sent_mails_none (l : list event) :
  Forall (fun e => is_sendgrid_send e = false) l -> sent_mails l = [].
Proof.
  induction 1 as [| e l He _ IH]; [reflexivity |].
  destruct e; try discriminate He; exact IH.
Qed.

Lemma sent_mails_after_send {A} reply c (m : M Mail)
    (k : Response -> M A) (mail : Mail) (t : trace) :
  m t = (Returned mail, t) ->
  (forall resp, emits_only (fun e => is_sendgrid_send e = false) (k resp)) ->
  sent_mails
    (effects (bind m (fun mail' => bind (client_send reply c mail') k)) t)
  = [mail].
Proof.
  intros Hm Hk. unfold effects, bind. rewrite Hm. unfold client_send.
  destruct (reply t c mail) as [resp | e].
  - destruct (Hk resp (t ++ [SendGridSend c mail])) as (new & Hs & HP).
    destruct (k resp (t ++ [SendGridSend c mail])) as [r t1].
    cbn in Hs |- *. subst t1.
    rewrite <- app_assoc, drop_app_length.
    change (mail :: sent_mails new = [mail]).
    now rewrite (sent_mails_none new HP).
  - cbn. rewrite drop_app_length. reflexivity.
Qed.

(** Past the whitelist gate, with an attachment that encodes, exactly one
    mail is handed to the client, and it is the expected one. *)
Lemma sendgrid_sent_mail settings sendgrid_reply
    from_addr to_addr subject message categories attachment_name
    attachment_content cc_addr bcc_addr reply_to client (t : trace) :
  gate_closed settings to_addr = false ->
  encodable attachment_name attachment_content = true ->
  sent_mails
    (effects
       (_send_with_sendgrid settings sendgrid_reply from_addr to_addr subject
          message categories attachment_name attachment_content cc_addr
          bcc_addr reply_to client) t)
  = [expected_mail from_addr to_addr subject message categories
       attachment_name attachment_content cc_addr bcc_addr reply_to].
Proof.
  intros Hgate Henc. unfold gate_closed in Hgate.
  unfold _send_with_sendgrid, sentry_log_message. cbv zeta.
  rewrite Hgate, personalization_built.
  assert (Hk : forall (resp : Response),
    emits_only (fun e => is_sendgrid_send e = false)
      (if negb (bool_decide (status_code resp ∈ [200; 201; 202]%Z))
       then
         emit (SentryMessage
           [FInt (status_code resp);
            Lit " error response from sendgrid.";
            Lit "from_addr:  "; FStr from_addr; Lit nl;
            Lit "to_addr:  "; FStr to_addr; Lit nl;
            Lit "subject:  "; FStr subject; Lit nl;
            Lit "mimetype:  html"; Lit nl;
            Lit "message:  "; FStr (substring 0 30 (body resp)); Lit nl;
            Lit "categories:  "; FOptList categories; Lit nl;
            Lit "attachment_name:  "; FOptStr attachment_name; Lit nl]) >>
         ret VNone
       else ret (VBool true))).
  { intros resp. repeat emits_step; reflexivity. }
  destruct (encodable_cases _ _ Henc) as [Hw | (name & b & Hw & -> & ->)].
  - unfold wants_attachment in Hw.
    assert (Hatt : expected_attachments attachment_name attachment_content
                   = []).
    { unfold expected_attachments.
      destruct attachment_name as [name |],
               attachment_content as [[s | b | b] |]; try reflexivity.
      change (truthy name && truthy b = false) in Hw. now rewrite Hw. }
    unfold expected_mail. rewrite Hatt.
    destruct attachment_name as [name |], attachment_content as [ac |];
      try (change (truthy name && truthy ac = false) in Hw; rewrite Hw);
      (etrans; [apply sent_mails_after_send; [reflexivity | exact Hk] |]);
      destruct reply_to as [[| ? ?] |], categories as [[| ? ?] |];
      reflexivity.
  - change (truthy name && truthy b = true) in Hw.
    unfold expected_mail, expected_attachments. rewrite Hw.
    change (truthy name && truthy (CBytes b)) with (truthy name && truthy b).
    rewrite Hw.
    etrans; [apply sent_mails_after_send; [reflexivity | exact Hk] |].
    destruct reply_to as [[| ? ?] |], categories as [[| ? ?] |];
      reflexivity.
Qed.

End SendGridMail.

Section SendGridRun.

Import Email EmailSpec SendGridSpec.

Variable settings : Settings.
Variable sendgrid_reply : trace -> sg_client -> Mail -> outcome Response.


(** Every run of [_send_with_sendgrid] is of one of three kinds: stopped
    at the whitelist gate, stopped by [b64encode], or a send followed by
    the handling of the client's answer. *)
Lemma sendgrid_run_cases
    from_addr to_addr subject message categories attachment_name
    attachment_content cc_addr bcc_addr reply_to client (t : trace) :
  let run :=
    _send_with_sendgrid settings sendgrid_reply from_addr to_addr subject
      message categories attachment_name attachment_content cc_addr
      bcc_addr reply_to client in
  (gate_closed settings to_addr = true
   /\ exists msg, run t = (Returned (VBool false), t ++ [SentryMessage msg]))
  \/ (gate_closed settings to_addr = false
      /\ encodable attachment_name attachment_content = false
      /\ run t = (Raised TypeError, t))
  \/ (gate_closed settings to_addr = false
      /\ encodable attachment_name attachment_content = true
      /\ exists c m, sends_and_reports sendgrid_reply c m t (run t)).
Proof.
  intros run.
  destruct (gate_closed settings to_addr) eqn:Hgate.
  - left. split; [reflexivity |]. unfold gate_closed in Hgate.
    subst run. unfold _send_with_sendgrid. cbv zeta. rewrite Hgate.
    eexists. reflexivity.
  - right.
    destruct (sendgrid_open_run from_addr to_addr subject message categories
                cc_addr bcc_addr reply_to) as (m0 & Hrun & _).
    destruct (Hrun settings sendgrid_reply attachment_name
                attachment_content client t Hgate) as (Hno & Hyes & Hraise).
    fold run in Hno, Hyes, Hraise.
    destruct (encodable attachment_name attachment_content) eqn:Henc.
    + right. split; [reflexivity |]. split; [reflexivity |].
      destruct (encodable_cases _ _ Henc) as [Hw | (name & b & Hw & Hn & Hc)].
      * eexists _, _. exact (Hno Hw).
      * eexists _, _. exact (Hyes name b Hw Hn Hc).
    + left. split; [reflexivity |]. split; [reflexivity |].
      unfold encodable in Henc.
      destruct (wants_attachment attachment_name attachment_content);
        [| discriminate Henc].
      apply Hraise; [reflexivity | exact Henc].
Qed.

(** X6. The mail handed to SendGrid is addressed as asked: one
    personalization, whose [To] is [to_addr] alone, whose [Cc] and [Bcc]
    are the [cc_addr] and [bcc_addr] addresses in order -- a single [str]
    counting as one address, a falsy value as none. Only [to_addr] passes
    through the whitelist gate: [cc] and [bcc] addresses are not
    screened. *)
Theorem sendgrid_mail_recipients
    from_addr to_addr subject message categories attachment_name
    attachment_content cc_addr bcc_addr reply_to client (t : trace) :
  gate_closed settings to_addr = false ->
  encodable attachment_name attachment_content = true ->
  let run :=
    _send_with_sendgrid settings sendgrid_reply from_addr to_addr subject
      message categories attachment_name attachment_content cc_addr
      bcc_addr reply_to client in
  exists m p,
    sent_mails (effects run t) = [m]
    /\ personalizations m = [p]
    /\ tos p = [to_addr]
    /\ ccs p = (if truthy cc_addr then addr_list cc_addr else [])
    /\ bccs p = (if truthy bcc_addr then addr_list bcc_addr else []).
Proof.
  intros Hgate Henc run.
  eexists _, _. split.
  - apply sendgrid_sent_mail; assumption.
  - cbn. auto.
Qed.

(** X7. The mail handed to SendGrid carries the sender, the subject and
    the html body as given; its reply-to is set exactly when [reply_to] is
    truthy; and [add_category] is called, once and with the whole list,
    exactly when [categories] is a non-empty list. *)
Theorem sendgrid_mail_content
    from_addr to_addr subject message categories attachment_name
    attachment_content cc_addr bcc_addr reply_to client (t : trace) :
  gate_closed settings to_addr = false ->
  encodable attachment_name attachment_content = true ->
  let run :=
    _send_with_sendgrid settings sendgrid_reply from_addr to_addr subject
      message categories attachment_name attachment_content cc_addr
      bcc_addr reply_to client in
  exists m,
    sent_mails (effects run t) = [m]
    /\ from_email m = from_addr
    /\ mail_subject m = subject
    /\ html_content m = message
    /\ mail_reply_to m = (if truthy reply_to then reply_to else None)
    /\ mail_categories m =
         match categories with
         | Some (c :: cs) => [c :: cs]
         | Some [] | None => []
         end.
Proof.
  intros Hgate Henc run.
  eexists. split.
  - apply sendgrid_sent_mail; assumption.
  - cbn. repeat split. destruct categories as [[| c cs] |]; reflexivity.
Qed.

(** X8. An exception raised by [client.send] is not caught: it
    propagates to the caller, after the one send, and nothing is reported
    to sentry. *)
Theorem sendgrid_client_exception_propagates
    from_addr to_addr subject message categories attachment_name
    attachment_content cc_addr bcc_addr reply_to client (t : trace)
    (e : exn) :
  gate_closed settings to_addr = false ->
  encodable attachment_name attachment_content = true ->
  (forall c m, sendgrid_reply t c m = Raised e) ->
  let run :=
    _send_with_sendgrid settings sendgrid_reply from_addr to_addr subject
      message categories attachment_name attachment_content cc_addr
      bcc_addr reply_to client in
  fst (run t) = Raised e
  /\ exists c m, effects run t = [SendGridSend c m].
Proof.
  intros Hgate Henc Hreply run.
  destruct (sendgrid_run_cases from_addr to_addr subject message categories
              attachment_name attachment_content cc_addr bcc_addr reply_to
              client t)
    as [[Hg _] | [(_ & He & _) | (_ & _ & c & m & Hsent)]];
    try congruence.
  fold run in Hsent. unfold sends_and_reports in Hsent.
  rewrite Hreply in Hsent. rewrite Hsent. split; [reflexivity |].
  exists c, m. apply effects_app. rewrite Hsent. reflexivity.
Qed.


End SendGridRun.

(** ** What the result of a send means *)

Section ResultMeaning.

Import Email EmailSpec SmtpSpec SendGridSpec.

Variable settings : Settings.
Variable smtp_reply : trace -> smtp_op -> option exn.
Variable sendgrid_reply : trace -> sg_client -> Mail -> outcome Response.

Lemma smtp_returned_cases
    from_addr to_addr subject message ttls login username password
    bcc_addr reply_to (t : trace) (v : value) :
  let run :=
    _send_with_smtp settings smtp_reply from_addr to_addr subject message
      ttls login username password bcc_addr reply_to in
  fst (run t) = Returned v ->
  (v = VBool false
   /\ effects run t =
        [LoggerError "Mail username and password not set; skipping send."])
  \/ (v = VBool true
      /\ exists rcpts,
           list_add [to_addr] (or_ bcc_addr (Some (AddrList [])))
             = Returned rcpts
           /\ effects run t =
                (Smtp <$> session settings ttls login
                            (or_ username (MAIL_USERNAME settings))
                            (or_ password (MAIL_PASSWORD settings))
                            from_addr rcpts
                            (smtp_message from_addr to_addr subject message
                               reply_to))
                ++ [Smtp SmtpQuit]).
Proof.
  intros run Hv.
  destruct (credentials_missing settings login username password) eqn:Hcred.
  { pose proof (smtp_run_missing settings smtp_reply from_addr to_addr
                  subject message ttls login username password bcc_addr
                  reply_to t Hcred) as Hrun.
    fold run in Hrun. rewrite Hrun in Hv. injection Hv as <-.
    left. split; [reflexivity |]. apply effects_app. now rewrite Hrun. }
  destruct (list_add [to_addr] (or_ bcc_addr (Some (AddrList []))))
    as [rcpts | e] eqn:Hrcpts.
  2: { pose proof (smtp_run_bad_recipients settings smtp_reply from_addr
                     to_addr subject message ttls login username password
                     bcc_addr reply_to e t Hcred Hrcpts) as Hrun.
       fold run in Hrun. rewrite Hrun in Hv. discriminate Hv. }
  pose proof (smtp_run_shape settings smtp_reply from_addr to_addr subject
                message ttls login username password bcc_addr reply_to
                rcpts t Hcred Hrcpts) as Hshape.
  cbv zeta in Hshape. fold run in Hshape.
  destruct (smtp_reply t (SmtpConnect (MAIL_SERVER settings))) as [e |].
  - rewrite Hshape in Hv. discriminate Hv.
  - destruct Hshape as (k & _ & Hs & Hr).
    destruct (Hr v Hv) as [-> ->]. rewrite firstn_all in Hs.
    right. split; [reflexivity |]. exists rcpts. split; [reflexivity |].
    apply effects_app. exact Hs.
Qed.

Lemma sendgrid_returned_cases
    from_addr to_addr subject message categories attachment_name
    attachment_content cc_addr bcc_addr reply_to client (t : trace)
    (v : value) :
  let run :=
    _send_with_sendgrid settings sendgrid_reply from_addr to_addr subject
      message categories attachment_name attachment_content cc_addr
      bcc_addr reply_to client in
  fst (run t) = Returned v ->
  (v = VBool false /\ exists msg, effects run t = [SentryMessage msg])
  \/ (v = VBool true
      /\ exists c m resp,
           effects run t = [SendGridSend c m]
           /\ sendgrid_reply t c m = Returned resp
           /\ status_code resp ∈ [200; 201; 202]%Z)
  \/ (v = VNone
      /\ exists c m resp msg,
           effects run t = [SendGridSend c m; SentryMessage msg]
           /\ sendgrid_reply t c m = Returned resp
           /\ status_code resp ∉ [200; 201; 202]%Z).
Proof.
  intros run Hv.
  destruct (sendgrid_run_cases settings sendgrid_reply from_addr to_addr
              subject message categories attachment_name attachment_content
              cc_addr bcc_addr reply_to client t)
    as [(_ & msg & Hrun) | [(_ & _ & Hrun) | (_ & _ & c & m & Hsent)]];
    fold run in Hrun || fold run in Hsent.
  - rewrite Hrun in Hv. injection Hv as <-. left. split; [reflexivity |].
    exists msg. apply effects_app. now rewrite Hrun.
  - rewrite Hrun in Hv. discriminate Hv.
  - right. unfold sends_and_reports in Hsent.
    destruct (sendgrid_reply t c m) as [resp | e] eqn:Hreply.
    2: { rewrite Hsent in Hv. discriminate Hv. }
    destruct (bool_decide (status_code resp ∈ [200; 201; 202]%Z)) eqn:Hok.
    + rewrite Hsent in Hv. injection Hv as <-. left.
      split; [reflexivity |]. exists c, m, resp.
      split; [apply effects_app; now rewrite Hsent |].
      split; [exact Hreply |]. now apply bool_decide_eq_true in Hok.
    + destruct Hsent as (msg & Hrun & _). rewrite Hrun in Hv.
      injection Hv as <-. right.
      split; [reflexivity |]. exists c, m, resp, msg.
      split; [apply effects_app; now rewrite Hrun |].
      split; [exact Hreply |]. now apply bool_decide_eq_false in Hok.
Qed.


(** X11. The falsy results of [send_email] never hide a delivery. [False]
    means nothing was sent: the only effect is the sentry message of the
    whitelist gate (SendGrid path) or the logged error about missing
    credentials (SMTP path). [None] means either that outbound email is
    disabled and nothing was done at all, or that SendGrid was handed the
    mail and answered with a status other than 200, 201, 202, which was
    reported to sentry. *)
Theorem send_email_falsy_results
    from_addr to_addr subject message reply_to ttls login bcc_addr
    username password categories attachment_name attachment_content
    (t : trace) :
  let run :=
    send_email settings smtp_reply sendgrid_reply from_addr to_addr subject
      message reply_to ttls login bcc_addr username password categories
      attachment_name attachment_content in
  (fst (run t) = Returned (VBool false) ->
   (exists msg, effects run t = [SentryMessage msg])
   \/ effects run t =
        [LoggerError "Mail username and password not set; skipping send."])
  /\ (fst (run t) = Returned VNone ->
      (USE_EMAIL settings = false /\ effects run t = [])
      \/ (truthy (SENDGRID_API_KEY settings) = true
          /\ exists c m resp msg,
               effects run t = [SendGridSend c m; SentryMessage msg]
               /\ sendgrid_reply t c m = Returned resp
               /\ status_code resp ∉ [200; 201; 202]%Z)).
Proof.
  intros run. subst run. unfold send_email.
  destruct (USE_EMAIL settings); cbn [negb].
  2: { split; [intros [=] |]. intros _. left. split; [reflexivity |].
       apply effects_app. cbn. now rewrite app_nil_r. }
  destruct (truthy (SENDGRID_API_KEY settings)); split; intros Hv.
  - apply sendgrid_returned_cases in Hv
      as [[_ H] | [[[=] _] | [[=] _]]]. left. exact H.
  - apply sendgrid_returned_cases in Hv
      as [[[=] _] | [[[=] _] | [_ H]]]. right. split; [reflexivity |]. exact H.
  - apply smtp_returned_cases in Hv as [[_ H] | [[=] _]]. right. exact H.
  - apply smtp_returned_cases in Hv as [[[=] _] | [[=] _]].
Qed.

(** X15. Each path ignores the options of the other. Without a SendGrid
    key, [send_email] does not look at the whitelist settings, the
    categories or the attachment: a recipient outside the whitelist is
    mailed over SMTP all the same, and an attachment is silently dropped.
    With a key, it does not look at [ttls], [login], [username] or
    [password]. *)
Theorem send_email_ignores_other_path_options
    from_addr to_addr subject message reply_to ttls login bcc_addr
    username password categories attachment_name attachment_content
    (t : trace) :
  USE_EMAIL settings = true ->
  (truthy (SENDGRID_API_KEY settings) = false ->
   forall mode whitelist,
     send_email (with_whitelist settings mode whitelist) smtp_reply
       sendgrid_reply from_addr to_addr subject message reply_to ttls login
       bcc_addr username password categories attachment_name
       attachment_content t
     = send_email settings smtp_reply sendgrid_reply from_addr to_addr
         subject message reply_to ttls login bcc_addr username password
         None None None t)
  /\ (truthy (SENDGRID_API_KEY settings) = true ->
      forall ttls' login' username' password',
        send_email settings smtp_reply sendgrid_reply from_addr to_addr
          subject message reply_to ttls' login' bcc_addr username' password'
          categories attachment_name attachment_content t
        = send_email settings smtp_reply sendgrid_reply from_addr to_addr
            subject message reply_to ttls login bcc_addr username password
            categories attachment_name attachment_content t).
Proof.
  intros Huse. split; intros Hkey.
  - intros mode whitelist. unfold send_email. cbn [USE_EMAIL SENDGRID_API_KEY with_whitelist].
    rewrite Huse, Hkey. reflexivity.
  - intros ttls' login' username' password'. unfold send_email.
    rewrite Huse, Hkey. reflexivity.
Qed.

End ResultMeaning.

(** ** Attachments that encode *)

Section SendGridAttachment.

Import Email EmailSpec SendGridSpec.

Variable settings : Settings.
Variable sendgrid_reply : trace -> sg_client -> Mail -> outcome Response.

(** X12. When the attachment content is [bytes], or there is nothing to
    attach, the mail handed to SendGrid has one attachment exactly when
    both [attachment_name] and [attachment_content] are truthy -- its
    content is the base64 text of the bytes, its name [attachment_name],
    its disposition [attachment] -- and none otherwise (a missing or empty
    name, missing or empty content). Apart from the attachment the mail is
    the one the same call sends without attachment arguments. *)
Theorem sendgrid_bytes_attachment
    from_addr to_addr subject message categories attachment_name
    attachment_content cc_addr bcc_addr reply_to client (t : trace) :
  gate_closed settings to_addr = false ->
  encodable attachment_name attachment_content = true ->
  let run an ac :=
    _send_with_sendgrid settings sendgrid_reply from_addr to_addr subject
      message categories an ac cc_addr bcc_addr reply_to client in
  exists m m0,
    sent_mails (effects (run attachment_name attachment_content) t) = [m]
    /\ sent_mails (effects (run None None) t) = [m0]
    /\ attachments m0 = []
    /\ attachments m =
         match attachment_name, attachment_content with
         | Some name, Some (CBytes b) =>
             if truthy name && truthy b
             then [{| file_content := Base64.encode b; file_name := name;
                      disposition := "attachment" |}]
             else []
         | _, _ => []
         end
    /\ m = fold_left add_attachment (attachments m) m0.
Proof.
  intros Hgate Henc run.
  eexists _, _. split; [apply sendgrid_sent_mail; assumption |].
  split; [apply sendgrid_sent_mail; [assumption | reflexivity] |].
  split; [reflexivity |]. split; [reflexivity |].
  unfold expected_mail at 1 2. cbn [attachments].
  unfold expected_attachments.
  destruct attachment_name as [name |],
           attachment_content as [[s | b | b] |]; try reflexivity.
  destruct (truthy name && truthy b); reflexivity.
Qed.

End SendGridAttachment.

(** ** More on the contributor table *)

Section ContributorScenarios.

Import Contributor.

(** X13. A contributor that is not visible -- a curator or not -- is
    saved, and reloading it gives back the same user, node, [visible] and
    [is_curator]. *)
Theorem save_reload_invisible (c : Contributor) (db : DB) :
  visible c = false ->
  exists saved reloaded,
    fst (save c db) = inr saved
    /\ refresh_from_db saved (snd (save c db)) = Some reloaded
    /\ reloaded = saved
    /\ user reloaded = user c
    /\ node reloaded = node c
    /\ visible reloaded = false
    /\ is_curator reloaded = is_curator c.
Proof.
  intros Hv.
  destruct (save_valid c db) as (k & _ & Hsaved & Hrow).
  { rewrite Hv. reflexivity. }
  exists (with_pk c k), (with_pk c k).
  split; [exact Hsaved |]. split.
  - unfold refresh_from_db, get. cbn [pk with_pk]. rewrite Hrow. reflexivity.
  - cbn. auto.
Qed.

(** X14. A rejected save can be repaired: after a stored curator has been
    made visible and its save has failed, setting [visible] back to
    [False] and saving again succeeds, and the stored row is then the
    invisible curator. *)
Theorem save_after_rejection (c : Contributor) (k : nat) (db : DB) :
  pk c = Some k ->
  visible c = true ->
  is_curator c = true ->
  let db1 := snd (save c db) in
  let c' := {| pk := pk c; user := user c; node := node c;
               visible := false; is_curator := is_curator c |} in
  (exists e, fst (save c db) = inl e)
  /\ db1 = db
  /\ fst (save c' db1) = inr c'
  /\ refresh_from_db c (snd (save c' db1)) = Some c'.
Proof.
  intros Hpk Hv Hc db1 c'.
  assert (Hrej := save_rejected c db). rewrite Hv, Hc in Hrej.
  specialize (Hrej eq_refl).
  split; [rewrite Hrej; eauto |].
  assert (Hdb : db1 = db) by (subst db1; now rewrite Hrej).
  split; [exact Hdb |]. rewrite Hdb.
  subst c'. unfold save, refresh_from_db, get. cbn. rewrite Hpk. cbn.
  split; [reflexivity |].
  rewrite lookup_insert_eq. cbn. unfold of_row, to_row. cbn. reflexivity.
Qed.

End ContributorScenarios.

(** ** The further properties at sample inputs *)

Section MoreSampleRuns.

Import Email EmailSpec SmtpSpec SendGridSpec Contributor.


Lemma smtp_sendmail_only_after_handshake_witness :
  effects
    (_send_with_smtp smtp_settings smtp_accepts
       "noreply@osf.io" "ok@osf.io" "Hi" "<p>Hi</p>" false true None None
       (Some (AddrList ["b1@osf.io"])) (Some "help@osf.io")) []
  = [Smtp (SmtpConnect "smtp.sendgrid.net"); Smtp SmtpEhlo;
     Smtp (SmtpLogin (Some "osf-smtp") (Some "secret"));
     Smtp (SmtpSendmail "noreply@osf.io" ["ok@osf.io"; "b1@osf.io"]
             (smtp_message "noreply@osf.io" "ok@osf.io" "Hi" "<p>Hi</p>"
                (Some "help@osf.io")));
     Smtp SmtpQuit].
Proof.
  refine (proj1 (smtp_sendmail_only_after_handshake smtp_settings smtp_accepts
                   "noreply@osf.io" "ok@osf.io" "Hi" "<p>Hi</p>" false true
                   None None (Some (AddrList ["b1@osf.io"]))
                   (Some "help@osf.io") ["ok@osf.io"; "b1@osf.io"] []
                   "noreply@osf.io" ["ok@osf.io"; "b1@osf.io"]
                   (smtp_message "noreply@osf.io" "ok@osf.io" "Hi" "<p>Hi</p>"
                      (Some "help@osf.io"))
                   eq_refl eq_refl _)).
  vm_compute. repeat constructor.
Defined.

Lemma smtp_bcc_must_be_a_list_witness :
  _send_with_smtp smtp_settings smtp_accepts
    "noreply@osf.io" "ok@osf.io" "Hi" "<p>Hi</p>" true true None None
    (Some (AddrStr "b1@osf.io")) None []
  = (Raised TypeError, []).
Proof.
  exact (proj1 (smtp_bcc_must_be_a_list smtp_settings smtp_accepts
                  "noreply@osf.io" "ok@osf.io" "Hi" "<p>Hi</p>" true true
                  None None (Some (AddrStr "b1@osf.io")) None [])
           "b1@osf.io" eq_refl eq_refl eq_refl).
Defined.

Lemma smtp_optional_steps_follow_flags_witness :
  true = true
  /\ Some "me" = (if truthy (Some "me") then Some "me"
                  else MAIL_USERNAME smtp_settings).
Proof.
  pose proof (smtp_optional_steps_follow_flags smtp_settings smtp_accepts
                "noreply@osf.io" "ok@osf.io" "Hi" "<p>Hi</p>" true true
                (Some "me") None None None []) as [Htls Hlogin].
  split.
  - apply Htls. vm_compute. repeat constructor.
  - refine (proj1 (proj2 (Hlogin (Some "me") (Some "secret") _))).
    vm_compute. repeat constructor.
Defined.

Lemma sendgrid_mail_recipients_witness :
  exists m p,
    sent_mails
      (effects
         (_send_with_sendgrid sendgrid_settings (sendgrid_answers 202)
            "noreply@osf.io" "ok@osf.io" "Hi" "<p>Hi</p>" None None None
            (Some (AddrStr "cc@example.org"))
            (Some (AddrList ["b1@example.org"; "b2@example.org"]))
            None None) [])
    = [m]
    /\ personalizations m = [p]
    /\ tos p = ["ok@osf.io"]
    /\ ccs p = ["cc@example.org"]
    /\ bccs p = ["b1@example.org"; "b2@example.org"].
Proof.
  exact (sendgrid_mail_recipients sendgrid_settings (sendgrid_answers 202)
           "noreply@osf.io" "ok@osf.io" "Hi" "<p>Hi</p>" None None None
           (Some (AddrStr "cc@example.org"))
           (Some (AddrList ["b1@example.org"; "b2@example.org"]))
           None None [] eq_refl eq_refl).
Defined.

Lemma sendgrid_mail_content_witness :
  exists m,
    sent_mails
      (effects
         (_send_with_sendgrid sendgrid_settings (sendgrid_answers 202)
            "noreply@osf.io" "ok@osf.io" "Hi" "<p>Hi</p>"
            (Some ["welcome"; "osf"]) None None None None
            (Some "help@osf.io") None) [])
    = [m]
    /\ from_email m = "noreply@osf.io"
    /\ mail_subject m = "Hi"
    /\ html_content m = "<p>Hi</p>"
    /\ mail_reply_to m = Some "help@osf.io"
    /\ mail_categories m = [["welcome"; "osf"]].
Proof.
  exact (sendgrid_mail_content sendgrid_settings (sendgrid_answers 202)
           "noreply@osf.io" "ok@osf.io" "Hi" "<p>Hi</p>"
           (Some ["welcome"; "osf"]) None None None None
           (Some "help@osf.io") None [] eq_refl eq_refl).
Defined.

Lemma sendgrid_client_exception_propagates_witness :
  fst (_send_with_sendgrid sendgrid_settings
         (sendgrid_raises (LibraryError "HTTPError"))
         "noreply@osf.io" "ok@osf.io" "Hi" "<p>Hi</p>" None None None None
         None None None [])
  = Raised (LibraryError "HTTPError").
Proof.
  exact (proj1 (sendgrid_client_exception_propagates sendgrid_settings
                  (sendgrid_raises (LibraryError "HTTPError"))
                  "noreply@osf.io" "ok@osf.io" "Hi" "<p>Hi</p>" None None
                  None None None None None []
                  (LibraryError "HTTPError")
                  eq_refl eq_refl (fun _ _ => eq_refl))).
Defined.



Lemma send_email_falsy_results_witness :
  ((exists msg,
       effects
         (send_email sendgrid_settings smtp_accepts (sendgrid_answers 202)
            "noreply@osf.io" "stranger@example.org" "Hi" "<p>Hi</p>" None
            true true None None None None None None) []
       = [SentryMessage msg])
   \/ effects
        (send_email sendgrid_settings smtp_accepts (sendgrid_answers 202)
           "noreply@osf.io" "stranger@example.org" "Hi" "<p>Hi</p>" None
           true true None None None None None None) []
      = [LoggerError "Mail username and password not set; skipping send."])
  /\ ((USE_EMAIL disabled_settings = false
       /\ effects
            (send_email disabled_settings smtp_accepts (sendgrid_answers 202)
               "noreply@osf.io" "ok@osf.io" "Hi" "<p>Hi</p>" None
               true true None None None None None None) []
          = [])
      \/ (truthy (SENDGRID_API_KEY disabled_settings) = true
          /\ exists c m resp msg,
               effects
                 (send_email disabled_settings smtp_accepts
                    (sendgrid_answers 202)
                    "noreply@osf.io" "ok@osf.io" "Hi" "<p>Hi</p>" None
                    true true None None None None None None) []
               = [SendGridSend c m; SentryMessage msg]
               /\ sendgrid_answers 202 [] c m = Returned resp
               /\ status_code resp ∉ [200; 201; 202]%Z)).
Proof.
  split.
  - exact (proj1 (send_email_falsy_results sendgrid_settings smtp_accepts
                    (sendgrid_answers 202)
                    "noreply@osf.io" "stranger@example.org" "Hi" "<p>Hi</p>"
                    None true true None None None None None None [])
             eq_refl).
  - exact (proj2 (send_email_falsy_results disabled_settings smtp_accepts
                    (sendgrid_answers 202)
                    "noreply@osf.io" "ok@osf.io" "Hi" "<p>Hi</p>"
                    None true true None None None None None None [])
             eq_refl).
Defined.

Lemma sendgrid_bytes_attachment_witness :
  exists m m0,
    sent_mails
      (effects
         (_send_with_sendgrid sendgrid_settings (sendgrid_answers 202)
            "noreply@osf.io" "ok@osf.io" "Report" "<p>See attachment</p>"
            None (Some "report.csv")
            (Some (CBytes (list_byte_of_string "a,b")))
            None None None None) [])
    = [m]
    /\ sent_mails
         (effects
            (_send_with_sendgrid sendgrid_settings (sendgrid_answers 202)
               "noreply@osf.io" "ok@osf.io" "Report" "<p>See attachment</p>"
               None None None None None None None) [])
       = [m0]
    /\ attachments m0 = []
    /\ attachments m =
         [{| file_content := "YSxi"; file_name := "report.csv";
             disposition := "attachment" |}]
    /\ m = fold_left add_attachment (attachments m) m0.
Proof.
  exact (sendgrid_bytes_attachment sendgrid_settings (sendgrid_answers 202)
           "noreply@osf.io" "ok@osf.io" "Report" "<p>See attachment</p>"
           None (Some "report.csv")
           (Some (CBytes (list_byte_of_string "a,b")))
           None None None None [] eq_refl eq_refl).
Defined.

Lemma save_reload_invisible_witness :
  exists saved reloaded,
    fst (save {| pk := None; user := 7; node := 3;
                 visible := false; is_curator := true |} empty_db)
      = inr saved
    /\ refresh_from_db saved
         (snd (save {| pk := None; user := 7; node := 3;
                       visible := false; is_curator := true |} empty_db))
       = Some reloaded
    /\ reloaded = saved
    /\ user reloaded = 7
    /\ node reloaded = 3
    /\ visible reloaded = false
    /\ is_curator reloaded = true.
Proof.
  exact (save_reload_invisible
           {| pk := None; user := 7; node := 3;
              visible := false; is_curator := true |}
           empty_db eq_refl).
Defined.

Lemma save_after_rejection_witness :
  let db := snd (save {| pk := None; user := 7; node := 3;
                         visible := false; is_curator := true |} empty_db) in
  let c := {| pk := Some 1; user := 7; node := 3;
              visible := true; is_curator := true |} in
  visible <$> refresh_from_db c
                (snd (save {| pk := Some 1; user := 7; node := 3;
                              visible := false; is_curator := true |}
                        (snd (save c db))))
  = Some false.
Proof.
  intros db c.
  destruct (save_after_rejection c 1 db eq_refl eq_refl eq_refl)
    as (_ & _ & _ & Hreload).
  cbn [pk user node is_curator c] in Hreload.
  rewrite Hreload. reflexivity.
Defined.

Lemma send_email_ignores_other_path_options_witness :
  send_email (with_whitelist smtp_settings true ["ok@osf.io"]) smtp_accepts
    (sendgrid_answers 202)
    "noreply@osf.io" "stranger@example.org" "Hi" "<p>Hi</p>" None true true
    None None None (Some ["welcome"]) (Some "report.csv")
    (Some (CStr "a,b")) []
  = send_email smtp_settings smtp_accepts (sendgrid_answers 202)
      "noreply@osf.io" "stranger@example.org" "Hi" "<p>Hi</p>" None true true
      None None None None None None [].
Proof.
  exact (proj1 (send_email_ignores_other_path_options smtp_settings
                  smtp_accepts (sendgrid_answers 202)
                  "noreply@osf.io" "stranger@example.org" "Hi" "<p>Hi</p>"
                  None true true None None None (Some ["welcome"])
                  (Some "report.csv") (Some (CStr "a,b")) [] eq_refl)
           eq_refl true ["ok@osf.io"]).
Defined.

End MoreSampleRuns.
